(** * Interactive time-series dashboard: drill-down navigation and aggregation

    A shallow embedding of [interactive_time_series_dashboard.py]: the mock
    data generator, the daily and hourly aggregates, the four chart builders
    and the [update_graph] callback, followed by the properties of the
    navigation transitions, of the aggregates and of the raw windows.

    Modelling conventions.
    - A naive [datetime] is a record of a calendar date and a time of day at
      second precision, the precision of the samples; fractions of a second
      in a clicked timestamp are not modelled.  The calendar date is kept as its proleptic Gregorian
      ordinal ([date.toordinal()]); [ymd2ord] builds it from year, month and
      day.  Ordinals are unbounded integers: the [OverflowError] of dates
      past year 9999 is not modelled.
    - A [timedelta] is a number of seconds.  Adding one goes through the
      total number of seconds, as [datetime.__add__] and pandas do, and
      column comparisons compare that total, as pandas compares [datetime64]
      values.
    - Sample values are exact rationals: rounding of floating point numbers
      is not modelled.  [np.random.rand] is a generator state threaded
      through the loops; [np.sin] is a parameter.
    - A [DataFrame] is the list of its rows in index order. *)

From Stdlib Require Import ZArith QArith List String Ascii Lia Lqa Bool Sorted.
Import ListNotations.
Open Scope Z_scope.

(** ** Dates and times *)

Module DateTime.

Record datetime : Type := mkDatetime {
  dt_date : Z;      (* proleptic Gregorian ordinal of the calendar date *)
  dt_hour : Z;
  dt_minute : Z;
  dt_second : Z
}.

Definition valid (t : datetime) : Prop :=
  0 <= dt_hour t < 24 /\ 0 <= dt_minute t < 60 /\ 0 <= dt_second t < 60.

Definition is_leap (y : Z) : bool :=
  (y mod 4 =? 0) && (negb (y mod 100 =? 0) || (y mod 400 =? 0)).

Definition days_before_year (y : Z) : Z :=
  let p := y - 1 in p * 365 + p / 4 - p / 100 + p / 400.

Definition days_before_month (y m : Z) : Z :=
  nth (Z.to_nat m) [0; 0; 31; 59; 90; 120; 151; 181; 212; 243; 273; 304; 334] 0
  + (if (2 <? m) && is_leap y then 1 else 0).

(** [date(y, m, d).toordinal()] *)
Definition ymd2ord (y m d : Z) : Z :=
  days_before_year y + days_before_month y m + d.

(** [datetime(y, m, d)]: midnight of that day; also [pd.Timestamp(date)]
    and [pd.to_datetime(date)] of a calendar date. *)
Definition midnight (date : Z) : datetime := mkDatetime date 0 0 0.

(** Seconds elapsed since midnight of ordinal 0. *)
Definition to_seconds (t : datetime) : Z :=
  ((dt_date t * 24 + dt_hour t) * 60 + dt_minute t) * 60 + dt_second t.

Definition of_seconds (s : Z) : datetime :=
  mkDatetime (s / 86400) ((s mod 86400) / 3600) ((s mod 3600) / 60) (s mod 60).

(** [timedelta(days=d, seconds=s)], [pd.Timedelta(hours=h)] and
    [pd.Timedelta(minutes=m)], as seconds. *)
Definition timedelta (days seconds : Z) : Z := days * 86400 + seconds.
Definition Timedelta_hours (h : Z) : Z := h * 3600.
Definition Timedelta_minutes (m : Z) : Z := m * 60.

(** [t + delta] *)
Definition add (t : datetime) (delta : Z) : datetime :=
  of_seconds (to_seconds t + delta).

(** [t.date()], [t.hour] *)
Definition date (t : datetime) : Z := dt_date t.
Definition hour (t : datetime) : Z := dt_hour t.

(** [t.replace(minute=m, second=s)] *)
Definition replace_minute_second (t : datetime) (m s : Z) : datetime :=
  mkDatetime (dt_date t) (dt_hour t) m s.

(** [a >= b] and [a < b] on timestamps *)
Definition geb (a b : datetime) : bool := to_seconds b <=? to_seconds a.
Definition ltb (a b : datetime) : bool := to_seconds a <? to_seconds b.

End DateTime.
Import DateTime.

(** ** Python's [range] *)

Fixpoint zrange_from (lo : Z) (n : nat) : list Z :=
  match n with
  | O => []
  | S n' => lo :: zrange_from (lo + 1) n'
  end.

(** [zrange lo len] is [range(lo, lo + len)]; empty when [len <= 0]. *)
Definition zrange (lo len : Z) : list Z := zrange_from lo (Z.to_nat len).

(** [range(n)] *)
Definition range (n : Z) : list Z := zrange 0 n.

(** ** The raw series *)

Record Row : Type := mkRow {
  timestamp : datetime;
  value : Q
}.

Definition DataFrame : Type := list Row.

Section MockData.

(** The state of numpy's global generator and one call of
    [np.random.rand()]: the number drawn and the next state. *)
Variable rng : Type.
Variable rand : rng -> Q * rng.
(** [np.sin(second * 2 * np.pi / 86400)] *)
Variable daily_sin : Z -> Q.

(** Body of the inner loop: one sample is appended per second. *)
Definition append_sample (date : datetime) (st : DataFrame * rng) (second : Z)
  : DataFrame * rng :=
  let (data, g) := st in
  let ts := add date (timedelta 0 second) in
  let (u, g') := rand g in
  let v := (u * inject_Z 100 + inject_Z 50 * daily_sin second)%Q in
  (data ++ [mkRow ts v], g').

(** Body of the outer loop: one day of samples. *)
Definition append_day (start_date : datetime) (st : DataFrame * rng) (i : Z)
  : DataFrame * rng :=
  let date := add start_date (timedelta i 0) in
  fold_left (append_sample date) (range 86400) st.

(** [generate_mock_data(start_date, num_days)], from generator state [g];
    returns the frame and the generator state left behind. *)
Definition generate_mock_data (start_date : datetime) (num_days : Z) (g : rng)
  : DataFrame * rng :=
  fold_left (append_day start_date) (range num_days) ([], g).

(** The generator state after [k] draws and the value of the sample that
    uses the [k]-th draw (counted from 0). *)
Definition advance (k : nat) (g : rng) : rng :=
  Nat.iter k (fun s => snd (rand s)) g.

Definition sample_value (g : rng) (k : Z) : Q :=
  (fst (rand (advance (Z.to_nat k) g)) * inject_Z 100
   + inject_Z 50 * daily_sin (k mod 86400))%Q.

(** The [k]-th row of the frame generated from [start_date]. *)
Definition sample_row (start_date : datetime) (g : rng) (k : Z) : Row :=
  mkRow (of_seconds (to_seconds start_date + k)) (sample_value g k).

(** The rows at positions [lo], ..., [lo + len - 1]. *)
Definition sample_rows (start_date : datetime) (g : rng) (lo len : Z)
  : DataFrame :=
  map (sample_row start_date g) (zrange lo len).

End MockData.

Arguments append_sample {rng} rand daily_sin date st second.
Arguments append_day {rng} rand daily_sin start_date st i.
Arguments generate_mock_data {rng} rand daily_sin start_date num_days g.
Arguments advance {rng} rand k g.
Arguments sample_value {rng} rand daily_sin g k.
Arguments sample_row {rng} rand daily_sin start_date g k.
Arguments sample_rows {rng} rand daily_sin start_date g lo len.

(** ** [groupby(...).mean()] *)

Section GroupBy.

Variables (K A : Type).
Variable cmp : K -> K -> comparison.

(** Puts row [a] into the group of key [k]; groups are kept in increasing
    key order (pandas sorts group keys) and rows keep their order inside a
    group. *)
Fixpoint group_insert (k : K) (a : A) (gs : list (K * list A))
  : list (K * list A) :=
  match gs with
  | [] => [(k, [a])]
  | (k', l) :: gs' =>
      match cmp k k' with
      | Lt => (k, [a]) :: gs
      | Eq => (k', l ++ [a]) :: gs'
      | Gt => (k', l) :: group_insert k a gs'
      end
  end.

Definition groupby (key : A -> K) (rows : list A) : list (K * list A) :=
  fold_left (fun gs r => group_insert (key r) r gs) rows [].

(** Every key of [ks] is greater than the keys before it. *)
Definition increasing (ks : list K) : Prop :=
  forall (i j : nat) (ki kj : K),
    (i < j)%nat -> nth_error ks i = Some ki -> nth_error ks j = Some kj ->
    cmp kj ki = Gt.

End GroupBy.

Arguments increasing {K} cmp ks.
Arguments group_insert {K A} cmp k a gs.
Arguments groupby {K A} cmp key rows.

(** Order of the [(date, hour)] keys. *)
Definition pair_compare (a b : Z * Z) : comparison :=
  match Z.compare (fst a) (fst b) with
  | Eq => Z.compare (snd a) (snd b)
  | c => c
  end.

Definition sum (l : list Q) : Q := fold_right Qplus (inject_Z 0) l.

(** [Series.mean()]; a group is never empty. *)
Definition mean (l : list Q) : Q :=
  (sum l / inject_Z (Z.of_nat (List.length l)))%Q.

(** ** Charts *)

(** A title is an f-string: literal text and formatted values. *)
Inductive TitlePart : Type :=
| Lit (s : string)
| FmtDate (d : Z)                                (* {date} *)
| FmtHour02 (h : Z)                              (* {hour:02d} *)
| FmtStrftime (fmt : string) (t : datetime).     (* {t.strftime(fmt)} *)

Record Scatter : Type := mkScatter {
  x : list datetime;
  y : list Q;
  mode : string;
  marker_size : Z;
  hovertemplate : string
}.

Record Layout : Type := mkLayout {
  title : list TitlePart;
  xaxis_title : string;
  xaxis_tickformat : option string;
  xaxis_dtick : option Z;
  yaxis_title : string
}.

Record Figure : Type := mkFigure {
  data : list Scatter;
  layout : Layout
}.

(** The points of the first trace of a figure. *)
Definition figure_x (f : Figure) : list datetime :=
  match data f with s :: _ => x s | [] => [] end.
Definition figure_y (f : Figure) : list Q :=
  match data f with s :: _ => y s | [] => [] end.

(** ** Click events *)

Record Point : Type := mkPoint { point_x : datetime }.
Record ClickData : Type := mkClickData { points : list Point }.

Inductive exn : Type := IndexError.

Inductive result (A : Type) : Type :=
| Ok (a : A)
| Raise (e : exn).
Arguments Ok {A} a.
Arguments Raise {A} e.

(** [prop_id.split('.')[0]] *)
Fixpoint split_dot_first (s : string) : string :=
  match s with
  | EmptyString => EmptyString
  | String c s' =>
      if Ascii.eqb c "."%char then EmptyString else String c (split_dot_first s')
  end.

(** ** The dashboard: aggregates, chart builders and the callback *)

Record DailyRow : Type := mkDailyRow {
  d_date : Z;
  d_value : Q;
  d_timestamp : datetime
}.

Record HourlyRow : Type := mkHourlyRow {
  h_date : Z;
  h_hour : Z;
  h_value : Q;
  h_timestamp : datetime
}.

(** The columns [df['date']] and [df['hour']]. *)
Definition row_date (r : Row) : Z := date (timestamp r).
Definition row_hour (r : Row) : Z := hour (timestamp r).

Section Dashboard.

(** The module-level frame all functions read. *)
Variable df : DataFrame.

Definition daily_avg : list DailyRow :=
  map (fun g : Z * list Row =>
         mkDailyRow (fst g) (mean (map value (snd g))) (midnight (fst g)))
      (groupby Z.compare row_date df).

Definition hourly_avg : list HourlyRow :=
  map (fun g : (Z * Z) * list Row =>
         let (d, h) := fst g in
         mkHourlyRow d h (mean (map value (snd g)))
                     (add (midnight d) (Timedelta_hours h)))
      (groupby pair_compare (fun r => (row_date r, row_hour r)) df).

Definition create_weekly_chart : Figure :=
  mkFigure
    [mkScatter (map d_timestamp daily_avg) (map d_value daily_avg)
               "markers+lines" 10
               "Date: %{x|%Y-%m-%d}<br>Average Value: %{y:.2f}<extra></extra>"]
    (mkLayout [Lit "Weekly Overview (Click on a point to see daily data)"]
              "Date" None None "Average Value").

Definition create_daily_chart (date : Z) : Figure :=
  let day_data :=
    filter (fun r => DateTime.date (h_timestamp r) =? date) hourly_avg in
  mkFigure
    [mkScatter (map h_timestamp day_data) (map h_value day_data)
               "markers+lines" 8
               "Time: %{x|%H:%M}<br>Average Value: %{y:.2f}<extra></extra>"]
    (mkLayout [Lit "Hourly Data for "; FmtDate date;
               Lit " (Click on a point to see that hour's data)"]
              "Time" (Some "%H:%M"%string) (Some 3600000) "Value").

Definition create_hourly_chart (date hour : Z) : Figure :=
  let start_time := add (midnight date) (Timedelta_hours hour) in
  let end_time := add start_time (Timedelta_hours 1) in
  let hour_data :=
    filter (fun r => geb (timestamp r) start_time && ltb (timestamp r) end_time)
           df in
  mkFigure
    [mkScatter (map timestamp hour_data) (map value hour_data)
               "markers+lines" 6
               "Time: %{x|%H:%M:%S}<br>Value: %{y:.2f}<extra></extra>"]
    (mkLayout [Lit "Minute Data for "; FmtDate date; Lit " "; FmtHour02 hour;
               Lit ":00 (Click on a point to see second-level data)"]
              "Time" (Some "%H:%M:%S"%string) (Some 300000) "Value").

Definition create_second_chart (start_time : datetime) : Figure :=
  let end_time := add start_time (Timedelta_minutes 1) in
  let minute_data :=
    filter (fun r => geb (timestamp r) start_time && ltb (timestamp r) end_time)
           df in
  mkFigure
    [mkScatter (map timestamp minute_data) (map value minute_data)
               "markers+lines" 4
               "Time: %{x|%H:%M:%S}<br>Value: %{y:.2f}<extra></extra>"]
    (mkLayout [Lit "Second-level Data for ";
               FmtStrftime "%Y-%m-%d %H:%M" start_time]
              "Time" (Some "%H:%M:%S"%string) (Some 1000) "Value").

(** [clickData['points'][0]['x']], parsed by [pd.to_datetime]. *)
Definition clicked_x (clickData : ClickData) : result datetime :=
  match points clickData with
  | [] => Raise IndexError
  | p :: _ => Ok (point_x p)
  end.

(** The callback.  [triggered] lists the [prop_id]s of
    [dash.callback_context.triggered]; the result is the new figure and
    the new content of the [current-view] store. *)
Definition update_graph (triggered : list string)
           (clickData : option ClickData) (n_clicks : Z)
           (current_view : string) : result (Figure * string) :=
  match triggered with
  | [] => Ok (create_weekly_chart, "weekly"%string)
  | prop_id :: _ =>
      let trigger_id := split_dot_first prop_id in
      if String.eqb trigger_id "reset-button" then
        Ok (create_weekly_chart, "weekly"%string)
      else
        match (if String.eqb trigger_id "chart" then clickData else None) with
        | Some cd =>
            if String.eqb current_view "weekly" then
              match clicked_x cd with
              | Ok t => Ok (create_daily_chart (date t), "daily"%string)
              | Raise e => Raise e
              end
            else if String.eqb current_view "daily" then
              match clicked_x cd with
              | Ok t =>
                  Ok (create_hourly_chart (date t) (hour t), "hourly"%string)
              | Raise e => Raise e
              end
            else if String.eqb current_view "hourly" then
              match clicked_x cd with
              | Ok t =>
                  Ok (create_second_chart (replace_minute_second t 0 0),
                      "second"%string)
              | Raise e => Raise e
              end
            else Ok (create_weekly_chart, "weekly"%string)
        | None => Ok (create_weekly_chart, "weekly"%string)
        end
  end.

End Dashboard.

(** ** The program's own data: seven days from 2024-01-01 *)

Module Program.
Section Program.

Variable rng : Type.
Variable rand : rng -> Q * rng.
Variable daily_sin : Z -> Q.
(** State of the generator when the module is loaded. *)
Variable seed : rng.

Definition start_date : datetime := midnight (ymd2ord 2024 1 1).

Definition df : DataFrame :=
  fst (generate_mock_data rand daily_sin start_date 7 seed).

End Program.
End Program.

(** ** A concrete session

    A generator that returns 1/2 at every draw, a flat daily cycle, and the
    frame the module builds from them; then a click on the chart at
    2024-01-03 14:52:10 and one at 2023-12-31 00:00:00, the day before the
    series starts. *)

Definition example_rand (s : Z) : Q * Z := (1 # 2, s + 1).
Definition example_sin (second : Z) : Q := inject_Z 0.
Definition example_df : DataFrame :=
  Program.df Z example_rand example_sin 0.

Definition example_click : ClickData :=
  mkClickData [mkPoint (mkDatetime (ymd2ord 2024 1 3) 14 52 10)].
Definition example_click_before : ClickData :=
  mkClickData [mkPoint (midnight (ymd2ord 2023 12 31))].

(** A frame of four samples, small enough to evaluate: three on day 5
    (00:00:00, 00:00:01 and 01:00:00) and one on day 6. *)
Definition small_df : DataFrame :=
  [mkRow (mkDatetime 5 0 0 0) (1 # 2); mkRow (mkDatetime 5 0 0 1) (3 # 2);
   mkRow (mkDatetime 5 1 0 0) (5 # 2); mkRow (mkDatetime 6 0 0 0) (7 # 2)].

(** * Properties *)

(** ** The model on small inputs *)

Example ymd2ord_2024_01_01 : ymd2ord 2024 1 1 = 738886.
Proof. reflexivity. Qed.

Example ymd2ord_leap_february : ymd2ord 2024 3 1 - ymd2ord 2024 2 1 = 29.
Proof. reflexivity. Qed.

Example add_carries_into_the_date :
  add (mkDatetime 5 23 59 59) (timedelta 0 2) = mkDatetime 6 0 0 1.
Proof. reflexivity. Qed.

Example split_dot_first_reset :
  split_dot_first "reset-button.n_clicks" = "reset-button"%string.
Proof. reflexivity. Qed.

Example generate_no_day :
  generate_mock_data example_rand example_sin (midnight 5) 0 0 = ([], 0).
Proof. reflexivity. Qed.

Example small_daily_avg :
  map (fun r => (d_date r, Qred (d_value r), d_timestamp r)) (daily_avg small_df)
  = [(5, 3 # 2, midnight 5); (6, 7 # 2, midnight 6)].
Proof. vm_compute. reflexivity. Qed.

Example small_hourly_avg :
  map (fun r => (h_date r, h_hour r, Qred (h_value r))) (hourly_avg small_df)
  = [(5, 0, 1 # 1); (5, 1, 5 # 2); (6, 0, 7 # 2)].
Proof. vm_compute. reflexivity. Qed.

Example small_hourly_chart :
  figure_x (create_hourly_chart small_df 5 0)
  = [mkDatetime 5 0 0 0; mkDatetime 5 0 0 1].
Proof. vm_compute. reflexivity. Qed.

Example small_click_in_hourly_view :
  update_graph small_df ["chart.clickData"%string]
               (Some (mkClickData [mkPoint (mkDatetime 5 0 0 1)])) 0 "hourly"
  = Ok (create_second_chart small_df (mkDatetime 5 0 0 0), "second"%string).
Proof. reflexivity. Qed.

Example small_click_without_points :
  update_graph small_df ["chart.clickData"%string] (Some (mkClickData [])) 0
               "weekly"
  = Raise IndexError.
Proof. reflexivity. Qed.

(** ** Arithmetic of dates and times *)

Lemma to_seconds_of_seconds (s : Z) : to_seconds (of_seconds s) = s.
Proof.
  unfold to_seconds, of_seconds; cbn [dt_date dt_hour dt_minute dt_second].
  Z.div_mod_to_equations. lia.
Qed.

Lemma of_seconds_to_seconds (t : datetime) :
  valid t -> of_seconds (to_seconds t) = t.
Proof.
  destruct t as [d h m s]. unfold valid, to_seconds, of_seconds.
  cbn [dt_date dt_hour dt_minute dt_second]. intros (Hh & Hm & Hs).
  f_equal; Z.div_mod_to_equations; lia.
Qed.

Lemma valid_of_seconds (s : Z) : valid (of_seconds s).
Proof.
  unfold valid, of_seconds; cbn [dt_date dt_hour dt_minute dt_second].
  repeat split; Z.div_mod_to_equations; lia.
Qed.

Lemma to_seconds_add (t : datetime) (delta : Z) :
  to_seconds (add t delta) = to_seconds t + delta.
Proof. unfold add. apply to_seconds_of_seconds. Qed.

Lemma to_seconds_midnight (d : Z) : to_seconds (midnight d) = d * 86400.
Proof. unfold to_seconds, midnight; cbn [dt_date dt_hour dt_minute dt_second]. lia. Qed.

Lemma date_of_seconds (s : Z) : date (of_seconds s) = s / 86400.
Proof. reflexivity. Qed.

Lemma hour_of_seconds (s : Z) : hour (of_seconds s) = (s mod 86400) / 3600.
Proof. reflexivity. Qed.

(** The hour [h] of day [d] starts at [d], [h]:00:00. *)
Lemma add_midnight_hours (d h : Z) :
  0 <= h < 24 -> add (midnight d) (Timedelta_hours h) = mkDatetime d h 0 0.
Proof.
  intros Hh. unfold add. rewrite to_seconds_midnight.
  replace (d * 86400 + Timedelta_hours h) with (to_seconds (mkDatetime d h 0 0))
    by (unfold to_seconds, Timedelta_hours; cbn; lia).
  apply of_seconds_to_seconds. unfold valid; cbn. lia.
Qed.

(** ** Ranges *)

Lemma zrange_from_O (lo : Z) : zrange_from lo O = [].
Proof. reflexivity. Qed.

Lemma zrange_from_S (lo : Z) (n : nat) :
  zrange_from lo (S n) = lo :: zrange_from (lo + 1) n.
Proof. reflexivity. Qed.

Lemma fold_left_nil_eq {X Y : Type} (f : X -> Y -> X) (i : X) :
  fold_left f [] i = i.
Proof. reflexivity. Qed.

Lemma fold_left_cons_eq {X Y : Type} (f : X -> Y -> X) (a : Y) (l : list Y)
      (i : X) :
  fold_left f (a :: l) i = fold_left f l (f i a).
Proof. reflexivity. Qed.

Lemma zrange_from_length (lo : Z) (n : nat) : List.length (zrange_from lo n) = n.
Proof. revert lo; induction n as [|n IH]; intros lo; cbn; [reflexivity | now rewrite IH]. Qed.

Lemma zrange_length (lo len : Z) :
  0 <= len -> Z.of_nat (List.length (zrange lo len)) = len.
Proof. intros H. unfold zrange. rewrite zrange_from_length. lia. Qed.

Lemma zrange_from_app (lo : Z) (a b : nat) :
  zrange_from lo (a + b) = zrange_from lo a ++ zrange_from (lo + Z.of_nat a) b.
Proof.
  revert lo; induction a as [|a IH]; intros lo.
  - cbn [Nat.add zrange_from app]. f_equal. lia.
  - cbn [Nat.add zrange_from app]. rewrite IH. do 3 f_equal. lia.
Qed.

Lemma zrange_app (lo a b : Z) :
  0 <= a -> 0 <= b -> zrange lo (a + b) = zrange lo a ++ zrange (lo + a) b.
Proof.
  intros Ha Hb. unfold zrange. rewrite Z2Nat.inj_add by assumption.
  rewrite zrange_from_app. do 3 f_equal. lia.
Qed.

Lemma zrange_nil (lo len : Z) : len <= 0 -> zrange lo len = [].
Proof.
  intros H. unfold zrange. replace (Z.to_nat len) with O by lia. reflexivity.
Qed.

Lemma zrange_cons (lo len : Z) :
  0 < len -> zrange lo len = lo :: zrange (lo + 1) (len - 1).
Proof.
  intros H. unfold zrange.
  replace (Z.to_nat len) with (S (Z.to_nat (len - 1))) by lia. reflexivity.
Qed.

Lemma in_zrange_from (lo : Z) (n : nat) (k : Z) :
  In k (zrange_from lo n) <-> lo <= k < lo + Z.of_nat n.
Proof.
  revert lo; induction n as [|n IH]; intros lo; cbn [zrange_from In].
  - lia.
  - rewrite IH. lia.
Qed.

Lemma in_zrange (lo len k : Z) : In k (zrange lo len) <-> lo <= k < lo + len.
Proof. unfold zrange. rewrite in_zrange_from. lia. Qed.

Lemma map_zrange_shift {B : Type} (f : Z -> B) (c lo len : Z) :
  map (fun k => f (c + k)) (zrange lo len) = map f (zrange (c + lo) len).
Proof.
  unfold zrange. generalize (Z.to_nat len) as n. intros n; revert lo.
  induction n as [|n IH]; intros lo; cbn [zrange_from map]; [reflexivity|].
  rewrite IH. do 3 f_equal. lia.
Qed.

(** A range of [m] blocks of [c] elements each. *)
Lemma zrange_blocks (c : Z) (m : nat) (lo : Z) :
  0 <= c ->
  zrange (c * lo) (c * Z.of_nat m)
  = List.concat (map (fun j => zrange (c * j) c) (zrange_from lo m)).
Proof.
  intros Hc. revert lo; induction m as [|m IH]; intros lo.
  - cbn [zrange_from map List.concat]. apply zrange_nil. lia.
  - cbn [zrange_from map List.concat]. rewrite <- IH.
    replace (c * Z.of_nat (S m)) with (c + c * Z.of_nat m) by lia.
    rewrite zrange_app by lia. do 2 f_equal. lia.
Qed.

Lemma nth_error_zrange_from (lo : Z) (n i : nat) :
  (i < n)%nat -> nth_error (zrange_from lo n) i = Some (lo + Z.of_nat i).
Proof.
  revert lo i; induction n as [|n IH]; intros lo i Hi; [lia|].
  destruct i as [|i]; cbn [zrange_from nth_error].
  - f_equal. lia.
  - rewrite IH by lia. f_equal. lia.
Qed.

Lemma filter_none {X : Type} (p : X -> bool) (l : list X) :
  (forall a, In a l -> p a = false) -> filter p l = [].
Proof.
  induction l as [|a l IH]; intros H; [reflexivity|].
  cbn [filter]. rewrite (H a) by now left.
  apply IH. intros a' Ha'. apply H. now right.
Qed.

(** Filtering a range by a window keeps the part of the range inside it. *)
Lemma filter_zrange_window (lo len a b : Z) :
  lo <= a -> a <= b -> b <= lo + len ->
  filter (fun k => (a <=? k) && (k <? b)) (zrange lo len) = zrange a (b - a).
Proof.
  intros H1 H2 H3.
  replace len with ((a - lo) + ((b - a) + (lo + len - b))) by lia.
  rewrite !zrange_app by lia. rewrite !filter_app.
  replace (lo + (a - lo)) with a by lia.
  rewrite (filter_none _ (zrange lo (a - lo))),
    (filter_none _ (zrange (a + (b - a)) _)).
  - cbn [app]. rewrite app_nil_r. apply forallb_filter_id.
    apply forallb_forall. intros k Hk. apply in_zrange in Hk. lia.
  - intros k Hk. apply in_zrange in Hk.
    apply andb_false_iff. rewrite Z.leb_gt, Z.ltb_ge. lia.
  - intros k Hk. apply in_zrange in Hk.
    apply andb_false_iff. rewrite Z.leb_gt, Z.ltb_ge. lia.
Qed.

Lemma zrange_one (a : Z) : zrange a 1 = [a].
Proof. reflexivity. Qed.

(** A filter that holds at one position of the range only. *)
Lemma filter_zrange_single (p : Z -> bool) (lo len a : Z) :
  (forall k, lo <= k < lo + len -> p k = true <-> k = a) ->
  lo <= a < lo + len ->
  filter p (zrange lo len) = [a].
Proof.
  intros Hp Ha.
  rewrite (filter_ext_in _ (fun k => (a <=? k) && (k <? a + 1))).
  - rewrite filter_zrange_window by lia.
    replace (a + 1 - a) with 1 by lia. apply zrange_one.
  - intros k Hk. apply in_zrange in Hk. apply Bool.eq_true_iff_eq.
    rewrite Hp by assumption. rewrite andb_true_iff, Z.leb_le, Z.ltb_lt. lia.
Qed.

Lemma filter_zrange_outside (lo len a b : Z) :
  b <= lo \/ lo + len <= a ->
  filter (fun k => (a <=? k) && (k <? b)) (zrange lo len) = [].
Proof.
  intros H. apply filter_none. intros k Hk. apply in_zrange in Hk.
  apply andb_false_iff. rewrite Z.leb_gt, Z.ltb_ge. lia.
Qed.

(** ** The generated series *)

Section MockDataFacts.

Variable rng : Type.
Variable rand : rng -> Q * rng.
Variable daily_sin : Z -> Q.

Lemma advance_next (k : Z) (g : rng) :
  0 <= k ->
  snd (rand (advance rand (Z.to_nat k) g)) = advance rand (Z.to_nat (k + 1)) g.
Proof.
  intros Hk. replace (Z.to_nat (k + 1)) with (S (Z.to_nat k)) by lia.
  reflexivity.
Qed.

(** The inner loop, started after [base + lo] draws, appends the samples of
    seconds [lo], [lo + 1], ... and draws once for each. *)
Lemma inner_loop (date : datetime) (g : rng) (base : Z) (n : nat) :
  0 <= base ->
  forall (lo : Z) (data : DataFrame),
    0 <= lo ->
    fold_left (append_sample rand daily_sin date) (zrange_from lo n)
              (data, advance rand (Z.to_nat (base + lo)) g)
    = (data ++ map (fun s =>
                      mkRow (add date (timedelta 0 s))
                            (fst (rand (advance rand (Z.to_nat (base + s)) g))
                             * inject_Z 100 + inject_Z 50 * daily_sin s)%Q)
                   (zrange_from lo n),
       advance rand (Z.to_nat (base + lo + Z.of_nat n)) g).
Proof.
  intros Hb. induction n as [|n IH]; intros lo data Hlo.
  - cbn [zrange_from fold_left map]. rewrite app_nil_r. do 3 f_equal. lia.
  - cbn [zrange_from fold_left map]. unfold append_sample at 2.
    destruct (rand (advance rand (Z.to_nat (base + lo)) g)) as [u g'] eqn:E.
    assert (Hg' : g' = advance rand (Z.to_nat (base + (lo + 1))) g).
    { rewrite Z.add_assoc, <- advance_next by lia. now rewrite E. }
    rewrite Hg', IH by lia. rewrite <- app_assoc. cbn [app fst].
    f_equal. do 2 f_equal. lia.
Qed.

(** One day of samples, in terms of the position in the whole series. *)
Lemma day_rows (start_date : datetime) (g : rng) (i : Z) :
  0 <= i ->
  map (fun s =>
         mkRow (add (add start_date (timedelta i 0)) (timedelta 0 s))
               (fst (rand (advance rand (Z.to_nat (86400 * i + s)) g))
                * inject_Z 100 + inject_Z 50 * daily_sin s)%Q)
      (zrange 0 86400)
  = map (sample_row rand daily_sin start_date g) (zrange (86400 * i) 86400).
Proof.
  intros Hi.
  replace (zrange (86400 * i) 86400) with (zrange (86400 * i + 0) 86400)
    by (f_equal; lia).
  rewrite <- (map_zrange_shift (sample_row rand daily_sin start_date g)).
  apply map_ext_in. intros s Hs. apply in_zrange in Hs.
  unfold sample_row, sample_value, timedelta. f_equal.
  - unfold add. rewrite to_seconds_of_seconds. f_equal. lia.
  - do 3 f_equal. Z.div_mod_to_equations. lia.
Qed.

Lemma inner_loop_range (date : datetime) (g : rng) (base len : Z)
      (data : DataFrame) :
  0 <= base -> 0 <= len ->
  fold_left (append_sample rand daily_sin date) (range len)
            (data, advance rand (Z.to_nat base) g)
  = (data ++ map (fun s =>
                    mkRow (add date (timedelta 0 s))
                          (fst (rand (advance rand (Z.to_nat (base + s)) g))
                           * inject_Z 100 + inject_Z 50 * daily_sin s)%Q)
                 (zrange 0 len),
     advance rand (Z.to_nat (base + len)) g).
Proof.
  intros Hb Hl. unfold range, zrange.
  pose proof (inner_loop date g base (Z.to_nat len) Hb 0 data (Z.le_refl 0)) as H.
  rewrite Z.add_0_r in H. rewrite H. do 3 f_equal. lia.
Qed.

(** The outer loop body appends the samples of day [i]. *)
Lemma append_day_rows (start_date : datetime) (g : rng) (i : Z)
      (data : DataFrame) :
  0 <= i ->
  append_day rand daily_sin start_date
             (data, advance rand (Z.to_nat (86400 * i)) g) i
  = (data ++ map (sample_row rand daily_sin start_date g)
                 (zrange (86400 * i) 86400),
     advance rand (Z.to_nat (86400 * (i + 1))) g).
Proof.
  intros Hi. unfold append_day.
  rewrite inner_loop_range by lia. rewrite day_rows by lia.
  do 3 f_equal. lia.
Qed.

Lemma outer_loop (start_date : datetime) (g : rng) (n : nat) :
  forall (lo : Z) (data : DataFrame),
    0 <= lo ->
    fold_left (append_day rand daily_sin start_date) (zrange_from lo n)
              (data, advance rand (Z.to_nat (86400 * lo)) g)
    = (data ++ map (sample_row rand daily_sin start_date g)
                   (zrange (86400 * lo) (86400 * Z.of_nat n)),
       advance rand (Z.to_nat (86400 * (lo + Z.of_nat n))) g).
Proof.
  induction n as [|n IH]; intros lo data Hlo.
  - rewrite zrange_from_O, fold_left_nil_eq. rewrite zrange_nil by lia.
    cbn [map]. rewrite app_nil_r. do 3 f_equal. lia.
  - rewrite zrange_from_S, fold_left_cons_eq. rewrite append_day_rows by lia.
    rewrite IH by lia. rewrite <- app_assoc, <- map_app. f_equal.
    + do 2 f_equal.
      replace (86400 * Z.of_nat (S n)) with (86400 + 86400 * Z.of_nat n) by lia.
      rewrite zrange_app by lia. do 2 f_equal. lia.
    + do 2 f_equal. lia.
Qed.

(** The frame is the list of its [num_days * 86400] samples, one per
    second counted from [start_date], and the generator has been called
    once for each. *)
Lemma generate_mock_data_rows (start_date : datetime) (num_days : Z) (g : rng) :
  generate_mock_data rand daily_sin start_date num_days g
  = (map (sample_row rand daily_sin start_date g)
         (zrange 0 (86400 * Z.max 0 num_days)),
     advance rand (Z.to_nat (86400 * Z.max 0 num_days)) g).
Proof.
  unfold generate_mock_data, range. unfold zrange at 1.
  pose proof (outer_loop start_date g (Z.to_nat num_days) 0 [] (Z.le_refl 0))
    as H.
  rewrite Z.mul_0_r in H. change (advance rand (Z.to_nat 0) g) with g in H.
  eapply eq_trans; [exact H|]. rewrite app_nil_l.
  replace (0 + Z.of_nat (Z.to_nat num_days)) with (Z.max 0 num_days) by lia.
  replace (Z.of_nat (Z.to_nat num_days)) with (Z.max 0 num_days) by lia.
  reflexivity.
Qed.

End MockDataFacts.

(** ** Grouping rows that arrive in key order *)

Section GroupByFacts.

Variables (K A : Type).
Variable cmp : K -> K -> comparison.
Variable key : A -> K.
Hypothesis cmp_refl : forall k, cmp k k = Eq.

Lemma increasing_snoc (ks : list K) (k : K) :
  increasing cmp (ks ++ [k]) ->
  increasing cmp ks /\ forall k', In k' ks -> cmp k k' = Gt.
Proof.
  intros H. split.
  - intros i j ki kj Hij Hi Hj. apply (H i j); [assumption | |].
    + rewrite nth_error_app1; [assumption|]. apply nth_error_Some. congruence.
    + rewrite nth_error_app1; [assumption|]. apply nth_error_Some. congruence.
  - intros k' Hk'. apply In_nth_error in Hk' as [i Hi].
    assert (Hlt : (i < List.length ks)%nat) by (apply nth_error_Some; congruence).
    apply (H i (List.length ks)); [assumption | |].
    + rewrite nth_error_app1; assumption.
    + rewrite nth_error_app2 by lia. rewrite Nat.sub_diag. reflexivity.
Qed.

Lemma group_insert_new (k : K) (a : A) (gs : list (K * list A)) :
  (forall g, In g gs -> cmp k (fst g) = Gt) ->
  group_insert cmp k a gs = gs ++ [(k, [a])].
Proof.
  induction gs as [|[k' l] gs IH]; intros H; cbn [group_insert app].
  - reflexivity.
  - pose proof (H (k', l) (or_introl eq_refl)) as E. cbn [fst] in E.
    rewrite E, IH; [reflexivity|].
    intros g Hg. apply H. now right.
Qed.

Lemma group_insert_last (k : K) (a : A) (l : list A) (gs : list (K * list A)) :
  (forall g, In g gs -> cmp k (fst g) = Gt) ->
  group_insert cmp k a (gs ++ [(k, l)]) = gs ++ [(k, l ++ [a])].
Proof.
  induction gs as [|[k' l'] gs IH]; intros H; cbn [group_insert app].
  - now rewrite cmp_refl.
  - pose proof (H (k', l') (or_introl eq_refl)) as E. cbn [fst] in E.
    rewrite E, IH; [reflexivity|].
    intros g Hg. apply H. now right.
Qed.

(** Rows of one key, greater than every key seen so far, form a new last
    group. *)
Lemma fold_group_insert_block (k : K) (rows : list A) (gs : list (K * list A)) :
  rows <> [] ->
  (forall r, In r rows -> key r = k) ->
  (forall g, In g gs -> cmp k (fst g) = Gt) ->
  fold_left (fun gs r => group_insert cmp (key r) r gs) rows gs
  = gs ++ [(k, rows)].
Proof.
  intros Hne Hkey Hgt. destruct rows as [|a rows]; [congruence|].
  rewrite fold_left_cons_eq, (Hkey a) by now left.
  rewrite group_insert_new by assumption.
  assert (Hrest : forall (rest l : list A),
             (forall r, In r rest -> key r = k) ->
             fold_left (fun gs r => group_insert cmp (key r) r gs) rest
                       (gs ++ [(k, l)])
             = gs ++ [(k, l ++ rest)]).
  { induction rest as [|r rest IH]; intros l Hr.
    - rewrite fold_left_nil_eq, app_nil_r. reflexivity.
    - rewrite fold_left_cons_eq, (Hr r) by now left.
      rewrite group_insert_last by assumption.
      rewrite IH by (intros r' Hr'; apply Hr; now right).
      rewrite <- app_assoc. reflexivity. }
  apply Hrest. intros r Hr. apply Hkey. now right.
Qed.

(** A frame made of consecutive blocks, one per key, with increasing keys,
    is grouped into exactly these blocks. *)
Lemma groupby_blocks (blocks : list (K * list A)) :
  (forall b, In b blocks ->
             snd b <> [] /\ forall r, In r (snd b) -> key r = fst b) ->
  increasing cmp (map fst blocks) ->
  groupby cmp key (List.concat (map snd blocks)) = blocks.
Proof.
  induction blocks as [|b blocks IH] using rev_ind; intros Hb Hinc.
  - reflexivity.
  - rewrite map_app in Hinc. cbn [map] in Hinc.
    apply increasing_snoc in Hinc as [Hinc Hlast].
    rewrite map_app, concat_app. cbn [map List.concat]. rewrite app_nil_r.
    unfold groupby. rewrite fold_left_app.
    fold (groupby cmp key (List.concat (map snd blocks))).
    rewrite IH; [| intros b' Hb'; apply Hb, in_or_app; now left | assumption].
    destruct (Hb b) as [Hne Hkey]; [apply in_or_app; right; now left|].
    rewrite (fold_group_insert_block (fst b)); [| assumption | assumption |].
    + destruct b; reflexivity.
    + intros g Hg. apply Hlast. now apply in_map.
Qed.

End GroupByFacts.

Lemma pair_compare_refl (k : Z * Z) : pair_compare k k = Eq.
Proof. unfold pair_compare. now rewrite !Z.compare_refl. Qed.

(** Keys computed from an increasing function of the block index. *)
Lemma increasing_map_zrange {K : Type} (cmp : K -> K -> comparison)
      (f : Z -> K) (lo : Z) (n : nat) :
  (forall i j, lo <= i -> i < j -> j < lo + Z.of_nat n -> cmp (f j) (f i) = Gt) ->
  increasing cmp (map f (zrange_from lo n)).
Proof.
  intros H i j ki kj Hij Hi Hj.
  rewrite nth_error_map in Hi, Hj.
  assert (Hjn : (j < n)%nat).
  { destruct (Nat.lt_ge_cases j n) as [|Hge]; [assumption|].
    rewrite (proj2 (nth_error_None (zrange_from lo n) j)) in Hj
      by (rewrite zrange_from_length; lia).
    discriminate. }
  rewrite nth_error_zrange_from in Hi, Hj by lia.
  cbn [option_map] in Hi, Hj. injection Hi as <-. injection Hj as <-.
  apply H; lia.
Qed.

(** ** A series that starts at midnight *)

Section SeriesFacts.

Variable rng : Type.
Variable rand : rng -> Q * rng.
Variable daily_sin : Z -> Q.
Variable g : rng.
(** First day and number of days. *)
Variables d0 n : Z.
Hypothesis n_nonneg : 0 <= n.

Lemma generate_mock_data_frame :
  fst (generate_mock_data rand daily_sin (midnight d0) n g)
  = sample_rows rand daily_sin (midnight d0) g 0 (86400 * n).
Proof.
  rewrite generate_mock_data_rows. cbn [fst]. unfold sample_rows.
  now rewrite Z.max_r by assumption.
Qed.

Lemma to_seconds_sample (start_date : datetime) (k : Z) :
  to_seconds (timestamp (sample_row rand daily_sin start_date g k))
  = to_seconds start_date + k.
Proof. cbn [sample_row timestamp]. apply to_seconds_of_seconds. Qed.

Lemma row_date_sample (k : Z) :
  row_date (sample_row rand daily_sin (midnight d0) g k) = d0 + k / 86400.
Proof.
  unfold row_date. cbn [sample_row timestamp].
  rewrite date_of_seconds, to_seconds_midnight.
  Z.div_mod_to_equations. lia.
Qed.

Lemma row_hour_sample (k : Z) :
  row_hour (sample_row rand daily_sin (midnight d0) g k) = (k mod 86400) / 3600.
Proof.
  unfold row_hour. cbn [sample_row timestamp].
  rewrite hour_of_seconds, to_seconds_midnight.
  Z.div_mod_to_equations. lia.
Qed.

Lemma sample_rows_length (start_date : datetime) (lo len : Z) :
  0 <= len ->
  Z.of_nat (List.length (sample_rows rand daily_sin start_date g lo len)) = len.
Proof. intros H. unfold sample_rows. rewrite length_map. now apply zrange_length. Qed.

Lemma sample_rows_cons (start_date : datetime) (lo len : Z) :
  0 < len ->
  sample_rows rand daily_sin start_date g lo len
  = sample_row rand daily_sin start_date g lo
    :: sample_rows rand daily_sin start_date g (lo + 1) (len - 1).
Proof. intros H. unfold sample_rows. now rewrite zrange_cons by assumption. Qed.

Lemma in_sample_rows (start_date : datetime) (lo len : Z) (r : Row) :
  In r (sample_rows rand daily_sin start_date g lo len) <->
  exists k, lo <= k < lo + len /\ r = sample_row rand daily_sin start_date g k.
Proof.
  unfold sample_rows. rewrite in_map_iff. split.
  - intros (k & <- & Hk). exists k. split; [now apply in_zrange | reflexivity].
  - intros (k & Hk & ->). exists k. split; [reflexivity | now apply in_zrange].
Qed.

(** A filter that acts as a window on positions keeps the rows at the
    positions of the window. *)
Lemma filter_sample_rows_window (start_date : datetime) (p : Row -> bool)
      (lo len a b : Z) :
  (forall k, lo <= k < lo + len ->
             p (sample_row rand daily_sin start_date g k) = (a <=? k) && (k <? b)) ->
  lo <= a -> a <= b -> b <= lo + len ->
  filter p (sample_rows rand daily_sin start_date g lo len)
  = sample_rows rand daily_sin start_date g a (b - a).
Proof.
  intros Hp H1 H2 H3. unfold sample_rows.
  rewrite filter_map_swap.
  rewrite (filter_ext_in _ (fun k => (a <=? k) && (k <? b))).
  - now rewrite filter_zrange_window.
  - intros k Hk. apply Hp. now apply in_zrange.
Qed.

Lemma filter_sample_rows_outside (start_date : datetime) (p : Row -> bool)
      (lo len a b : Z) :
  (forall k, lo <= k < lo + len ->
             p (sample_row rand daily_sin start_date g k) = (a <=? k) && (k <? b)) ->
  b <= lo \/ lo + len <= a ->
  filter p (sample_rows rand daily_sin start_date g lo len) = [].
Proof.
  intros Hp H. unfold sample_rows.
  rewrite filter_map_swap.
  rewrite (filter_ext_in _ (fun k => (a <=? k) && (k <? b))).
  - now rewrite filter_zrange_outside.
  - intros k Hk. apply Hp. now apply in_zrange.
Qed.

(** The frame as a sequence of blocks of [c] rows. *)
Lemma sample_rows_blocks {X : Type} (start_date : datetime) (c m : Z)
      (keyf : Z -> X) :
  0 <= c -> 0 <= m ->
  sample_rows rand daily_sin start_date g 0 (c * m)
  = List.concat
      (map snd (map (fun j => (keyf j,
                               sample_rows rand daily_sin start_date g (c * j) c))
                    (zrange 0 m))).
Proof.
  intros Hc Hm. unfold sample_rows at 1.
  replace 0 with (c * 0) at 1 by lia.
  replace m with (Z.of_nat (Z.to_nat m)) at 1 by lia.
  rewrite zrange_blocks by assumption.
  rewrite concat_map, !map_map. reflexivity.
Qed.

(** The days of the frame, as [groupby] returns them. *)
Lemma groupby_date :
  groupby Z.compare row_date
          (sample_rows rand daily_sin (midnight d0) g 0 (86400 * n))
  = map (fun i => (d0 + i,
                   sample_rows rand daily_sin (midnight d0) g (86400 * i) 86400))
        (zrange 0 n).
Proof.
  rewrite (sample_rows_blocks _ 86400 n (fun i => d0 + i)) by lia.
  apply groupby_blocks.
  - apply Z.compare_refl.
  - intros b Hb. apply in_map_iff in Hb as (i & <- & Hi). cbn [fst snd]. split.
    + rewrite sample_rows_cons by lia. discriminate.
    + intros r Hr. apply in_sample_rows in Hr as (k & Hk & ->).
      rewrite row_date_sample. Z.div_mod_to_equations. lia.
  - rewrite map_map. cbn [fst]. apply increasing_map_zrange.
    intros i j _ Hij _. apply Z.compare_gt_iff. lia.
Qed.

(** The hours of the frame, as [groupby] returns them. *)
Lemma groupby_date_hour :
  groupby pair_compare (fun r => (row_date r, row_hour r))
          (sample_rows rand daily_sin (midnight d0) g 0 (86400 * n))
  = map (fun j => ((d0 + j / 24, j mod 24),
                   sample_rows rand daily_sin (midnight d0) g (3600 * j) 3600))
        (zrange 0 (24 * n)).
Proof.
  replace (86400 * n) with (3600 * (24 * n)) by lia.
  rewrite (sample_rows_blocks _ 3600 (24 * n) (fun j => (d0 + j / 24, j mod 24)))
    by lia.
  apply groupby_blocks.
  - apply pair_compare_refl.
  - intros b Hb. apply in_map_iff in Hb as (j & <- & Hj). cbn [fst snd]. split.
    + rewrite sample_rows_cons by lia. discriminate.
    + intros r Hr. apply in_sample_rows in Hr as (k & Hk & ->).
      rewrite row_date_sample, row_hour_sample.
      f_equal; Z.div_mod_to_equations; lia.
  - rewrite map_map. cbn [fst]. apply increasing_map_zrange.
    intros i j Hi Hij _. unfold pair_compare. cbn [fst snd].
    destruct (Z.compare_spec (d0 + j / 24) (d0 + i / 24)) as [E|E|E].
    + apply Z.compare_gt_iff. Z.div_mod_to_equations. lia.
    + exfalso. Z.div_mod_to_equations. lia.
    + reflexivity.
Qed.

End SeriesFacts.

(** ** Navigation *)

Lemma update_graph_reset (df : DataFrame) (prop_id : string)
      (rest : list string) (clickData : option ClickData) (n_clicks : Z)
      (current_view : string) :
  split_dot_first prop_id = "reset-button"%string ->
  update_graph df (prop_id :: rest) clickData n_clicks current_view
  = Ok (create_weekly_chart df, "weekly"%string).
Proof. intros H. unfold update_graph. rewrite H. reflexivity. Qed.

(** A click on the chart, in each of the three views that drill down. *)
Lemma update_graph_select (df : DataFrame) (prop_id : string)
      (rest : list string) (cd : ClickData) (t : datetime) (n_clicks : Z) :
  split_dot_first prop_id = "chart"%string ->
  clicked_x cd = Ok t ->
  update_graph df (prop_id :: rest) (Some cd) n_clicks "weekly"
  = Ok (create_daily_chart df (date t), "daily"%string)
  /\ update_graph df (prop_id :: rest) (Some cd) n_clicks "daily"
     = Ok (create_hourly_chart df (date t) (hour t), "hourly"%string)
  /\ update_graph df (prop_id :: rest) (Some cd) n_clicks "hourly"
     = Ok (create_second_chart df (mkDatetime (date t) (hour t) 0 0),
           "second"%string).
Proof.
  intros Hid Hx. unfold update_graph. rewrite Hid.
  change (String.eqb "chart" "reset-button") with false.
  change (String.eqb "chart" "chart") with true.
  cbv iota beta. rewrite Hx.
  repeat split; reflexivity.
Qed.

(** Whatever is neither a reset nor a click handled above ends at the last
    line of the callback. *)
Lemma update_graph_default (df : DataFrame) (triggered : list string)
      (clickData : option ClickData) (n_clicks : Z) (current_view : string) :
  triggered = []
  \/ (exists prop_id rest,
         triggered = prop_id :: rest
         /\ (split_dot_first prop_id <> "chart"%string
             \/ clickData = None
             \/ (current_view <> "weekly"%string
                 /\ current_view <> "daily"%string
                 /\ current_view <> "hourly"%string))) ->
  update_graph df triggered clickData n_clicks current_view
  = Ok (create_weekly_chart df, "weekly"%string).
Proof.
  intros [-> | (prop_id & rest & -> & H)]; [reflexivity|].
  unfold update_graph.
  destruct (String.eqb (split_dot_first prop_id) "reset-button"); [reflexivity|].
  destruct (String.eqb_spec (split_dot_first prop_id) "chart") as [Hc|Hc];
    [| reflexivity].
  destruct clickData as [cd|]; [| reflexivity].
  destruct H as [H | [H | (Hw & Hd & Hh)]]; [contradiction | discriminate |].
  apply String.eqb_neq in Hw, Hd, Hh. rewrite Hw, Hd, Hh. reflexivity.
Qed.

(** C1: a click on a point [t] of the chart moves from the weekly view to
    the daily view of the date of [t], from the daily view to the hourly
    view of the date and hour of [t], and from the hourly view to the second
    view that starts at the date and hour of [t] with minute 0 and second 0:
    the minute and second of [t] are dropped. *)
Theorem select_drills_down (df : DataFrame) (prop_id : string)
        (rest : list string) (cd : ClickData) (t : datetime) (n_clicks : Z) :
  split_dot_first prop_id = "chart"%string ->
  clicked_x cd = Ok t ->
  update_graph df (prop_id :: rest) (Some cd) n_clicks "weekly"
  = Ok (create_daily_chart df (date t), "daily"%string)
  /\ update_graph df (prop_id :: rest) (Some cd) n_clicks "daily"
     = Ok (create_hourly_chart df (date t) (hour t), "hourly"%string)
  /\ update_graph df (prop_id :: rest) (Some cd) n_clicks "hourly"
     = Ok (create_second_chart df (mkDatetime (date t) (hour t) 0 0),
           "second"%string).
Proof. apply update_graph_select. Qed.

Lemma select_drills_down_witness :
  split_dot_first "chart.clickData" = "chart"%string
  /\ clicked_x example_click = Ok (mkDatetime (ymd2ord 2024 1 3) 14 52 10)
  /\ update_graph example_df ["chart.clickData"%string] (Some example_click) 0
                  "weekly"
     = Ok (create_daily_chart example_df (ymd2ord 2024 1 3), "daily"%string)
  /\ update_graph example_df ["chart.clickData"%string] (Some example_click) 0
                  "daily"
     = Ok (create_hourly_chart example_df (ymd2ord 2024 1 3) 14, "hourly"%string)
  /\ update_graph example_df ["chart.clickData"%string] (Some example_click) 0
                  "hourly"
     = Ok (create_second_chart example_df
                               (mkDatetime (ymd2ord 2024 1 3) 14 0 0),
           "second"%string).
Proof.
  split; [reflexivity|]. split; [reflexivity|].
  apply (select_drills_down example_df "chart.clickData" [] example_click
                            (mkDatetime (ymd2ord 2024 1 3) 14 52 10) 0);
    reflexivity.
Defined.

(** C3, as the callback behaves: in the second view no branch of the
    callback matches, so every event, a click included, returns the weekly
    chart and the weekly view. *)
Theorem second_view_returns_weekly (df : DataFrame) (triggered : list string)
        (clickData : option ClickData) (n_clicks : Z) :
  update_graph df triggered clickData n_clicks "second"
  = Ok (create_weekly_chart df, "weekly"%string).
Proof.
  destruct triggered as [|prop_id rest].
  - apply update_graph_default. now left.
  - apply update_graph_default. right. exists prop_id, rest.
    split; [reflexivity|]. right; right. repeat split; discriminate.
Qed.

(** C3 fails: a click in the second view does not keep the second view. *)
Lemma second_view_click_counterexample :
  ~ exists fig : Figure,
      update_graph example_df ["chart.clickData"%string] (Some example_click) 1
                   "second"
      = Ok (fig, "second"%string).
Proof.
  intros (fig & H).
  rewrite (update_graph_default example_df) in H.
  - injection H as _ Hview. discriminate Hview.
  - right. exists "chart.clickData"%string, []. split; [reflexivity|].
    right; right. repeat split; discriminate.
Qed.

(** C4, as the callback behaves: an event that is neither a reset nor a
    click with a payload in the weekly, daily or hourly view returns the
    weekly chart and the weekly view. *)
Theorem other_events_return_weekly (df : DataFrame) (triggered : list string)
        (clickData : option ClickData) (n_clicks : Z) (current_view : string) :
  triggered = []
  \/ (exists prop_id rest,
         triggered = prop_id :: rest
         /\ (split_dot_first prop_id <> "chart"%string
             \/ clickData = None
             \/ (current_view <> "weekly"%string
                 /\ current_view <> "daily"%string
                 /\ current_view <> "hourly"%string))) ->
  update_graph df triggered clickData n_clicks current_view
  = Ok (create_weekly_chart df, "weekly"%string).
Proof. apply update_graph_default. Qed.

Lemma other_events_return_weekly_witness :
  (["chart.clickData"%string] = []
   \/ (exists prop_id rest,
          ["chart.clickData"%string] = prop_id :: rest
          /\ (split_dot_first prop_id <> "chart"%string
              \/ @None ClickData = None
              \/ ("daily"%string <> "weekly"%string
                  /\ "daily"%string <> "daily"%string
                  /\ "daily"%string <> "hourly"%string))))
  /\ update_graph example_df ["chart.clickData"%string] None 0 "daily"
     = Ok (create_weekly_chart example_df, "weekly"%string).
Proof.
  assert (H : ["chart.clickData"%string] = []
              \/ (exists prop_id rest,
                     ["chart.clickData"%string] = prop_id :: rest
                     /\ (split_dot_first prop_id <> "chart"%string
                         \/ @None ClickData = None
                         \/ ("daily"%string <> "weekly"%string
                             /\ "daily"%string <> "daily"%string
                             /\ "daily"%string <> "hourly"%string)))).
  { right. exists "chart.clickData"%string, []. split; [reflexivity|].
    right; left. reflexivity. }
  split; [exact H|].
  exact (other_events_return_weekly example_df ["chart.clickData"%string] None 0
                                    "daily" H).
Defined.

(** C4 fails: a chart trigger without a click payload in the daily view
    does not keep the daily view. *)
Lemma no_payload_counterexample :
  ~ exists fig : Figure,
      update_graph example_df ["chart.clickData"%string] None 0 "daily"
      = Ok (fig, "daily"%string).
Proof.
  intros (fig & H).
  rewrite (update_graph_default example_df) in H.
  - injection H as _ Hview. discriminate Hview.
  - right. exists "chart.clickData"%string, []. split; [reflexivity|].
    right; left. reflexivity.
Qed.

(** C5: a reset, in any view and whatever the click data, gives the weekly
    view, with the figure of the first call of the callback (nothing
    triggered, no click, the store at its initial value). *)
Theorem reset_returns_initial_view (df : DataFrame) (prop_id : string)
        (rest : list string) (clickData : option ClickData) (n_clicks : Z)
        (current_view : string) :
  split_dot_first prop_id = "reset-button"%string ->
  update_graph df (prop_id :: rest) clickData n_clicks current_view
  = Ok (create_weekly_chart df, "weekly"%string)
  /\ update_graph df (prop_id :: rest) clickData n_clicks current_view
     = update_graph df [] None 0 "weekly".
Proof.
  intros H. rewrite update_graph_reset by assumption. split; reflexivity.
Qed.

Lemma reset_returns_initial_view_witness :
  split_dot_first "reset-button.n_clicks" = "reset-button"%string
  /\ update_graph example_df ["reset-button.n_clicks"%string]
                  (Some example_click) 3 "hourly"
     = Ok (create_weekly_chart example_df, "weekly"%string)
  /\ update_graph example_df ["reset-button.n_clicks"%string]
                  (Some example_click) 3 "hourly"
     = update_graph example_df [] None 0 "weekly".
Proof.
  split; [reflexivity|].
  apply (reset_returns_initial_view example_df "reset-button.n_clicks" []
                                    (Some example_click) 3 "hourly").
  reflexivity.
Defined.

(** ** Aggregates and windows of a generated series *)

Section FrameFacts.

Variable rng : Type.
Variable rand : rng -> Q * rng.
Variable daily_sin : Z -> Q.
Variable g : rng.
Variables d0 n : Z.
Hypothesis n_nonneg : 0 <= n.

Lemma daily_avg_frame :
  daily_avg (sample_rows rand daily_sin (midnight d0) g 0 (86400 * n))
  = map (fun i =>
           mkDailyRow
             (d0 + i)
             (mean (map value (sample_rows rand daily_sin (midnight d0) g
                                           (86400 * i) 86400)))
             (midnight (d0 + i)))
        (zrange 0 n).
Proof.
  unfold daily_avg. rewrite groupby_date by assumption.
  rewrite map_map. reflexivity.
Qed.

Lemma hourly_avg_frame :
  hourly_avg (sample_rows rand daily_sin (midnight d0) g 0 (86400 * n))
  = map (fun j =>
           mkHourlyRow
             (d0 + j / 24) (j mod 24)
             (mean (map value (sample_rows rand daily_sin (midnight d0) g
                                           (3600 * j) 3600)))
             (add (midnight (d0 + j / 24)) (Timedelta_hours (j mod 24))))
        (zrange 0 (24 * n)).
Proof.
  unfold hourly_avg. rewrite groupby_date_hour by assumption.
  rewrite map_map. reflexivity.
Qed.

(** The samples of one calendar date. *)
Lemma filter_date_frame (d : Z) :
  d0 <= d < d0 + n ->
  filter (fun r => row_date r =? d)
         (sample_rows rand daily_sin (midnight d0) g 0 (86400 * n))
  = sample_rows rand daily_sin (midnight d0) g (86400 * (d - d0)) 86400.
Proof.
  intros Hd.
  rewrite filter_sample_rows_window
    with (a := 86400 * (d - d0)) (b := 86400 * (d - d0) + 86400); try lia.
  - f_equal. lia.
  - intros k Hk. rewrite row_date_sample.
    destruct (Z.eqb_spec (d0 + k / 86400) d) as [E|E];
      symmetry; [apply andb_true_iff | apply andb_false_iff];
      rewrite ?Z.leb_le, ?Z.ltb_lt, ?Z.leb_gt, ?Z.ltb_ge;
      Z.div_mod_to_equations; lia.
Qed.

(** The samples of one hour of one calendar date. *)
Lemma filter_date_hour_frame (d h : Z) :
  d0 <= d < d0 + n -> 0 <= h < 24 ->
  filter (fun r => (row_date r =? d) && (row_hour r =? h))
         (sample_rows rand daily_sin (midnight d0) g 0 (86400 * n))
  = sample_rows rand daily_sin (midnight d0) g
                (86400 * (d - d0) + 3600 * h) 3600.
Proof.
  intros Hd Hh.
  rewrite filter_sample_rows_window
    with (a := 86400 * (d - d0) + 3600 * h)
         (b := 86400 * (d - d0) + 3600 * h + 3600); try lia.
  - f_equal. lia.
  - intros k Hk. rewrite row_date_sample, row_hour_sample.
    destruct (Z.eqb_spec (d0 + k / 86400) d) as [E|E];
      destruct (Z.eqb_spec (k mod 86400 / 3600) h) as [E'|E'];
      cbn [andb]; symmetry; [apply andb_true_iff | | |];
      try apply andb_false_iff;
      rewrite ?Z.leb_le, ?Z.ltb_lt, ?Z.leb_gt, ?Z.ltb_ge;
      Z.div_mod_to_equations; lia.
Qed.

(** The samples of a time window, given by its bounds in seconds from the
    start of the series. *)
Lemma filter_time_window (start_time end_time : datetime) (a b : Z) :
  to_seconds start_time = d0 * 86400 + a ->
  to_seconds end_time = d0 * 86400 + b ->
  0 <= a -> a <= b -> b <= 86400 * n ->
  filter (fun r => geb (timestamp r) start_time && ltb (timestamp r) end_time)
         (sample_rows rand daily_sin (midnight d0) g 0 (86400 * n))
  = sample_rows rand daily_sin (midnight d0) g a (b - a).
Proof.
  intros Hs He H1 H2 H3.
  apply filter_sample_rows_window; try lia.
  intros k Hk. unfold geb, ltb.
  rewrite to_seconds_sample, to_seconds_midnight, Hs, He.
  f_equal.
  - apply Bool.eq_true_iff_eq. rewrite !Z.leb_le. lia.
  - apply Bool.eq_true_iff_eq. rewrite !Z.ltb_lt. lia.
Qed.

Lemma filter_time_window_outside (start_time end_time : datetime) (a b : Z) :
  to_seconds start_time = d0 * 86400 + a ->
  to_seconds end_time = d0 * 86400 + b ->
  b <= 0 \/ 86400 * n <= a ->
  filter (fun r => geb (timestamp r) start_time && ltb (timestamp r) end_time)
         (sample_rows rand daily_sin (midnight d0) g 0 (86400 * n))
  = [].
Proof.
  intros Hs He H.
  apply filter_sample_rows_outside with (a := a) (b := b); try lia.
  intros k Hk. unfold geb, ltb.
  rewrite to_seconds_sample, to_seconds_midnight, Hs, He.
  f_equal.
  - apply Bool.eq_true_iff_eq. rewrite !Z.leb_le. lia.
  - apply Bool.eq_true_iff_eq. rewrite !Z.ltb_lt. lia.
Qed.

End FrameFacts.

(** The frame of the module is the series of seven days that starts on
    2024-01-01 at midnight. *)
Lemma program_df_frame {rng : Type} (rand : rng -> Q * rng)
      (daily_sin : Z -> Q) (seed : rng) :
  Program.df rng rand daily_sin seed
  = sample_rows rand daily_sin (midnight (ymd2ord 2024 1 1)) seed 0 (86400 * 7).
Proof.
  unfold Program.df, Program.start_date.
  apply generate_mock_data_frame. lia.
Qed.

(** ** The raw series is regular *)

Lemma nth_error_sample_rows {rng : Type} (rand : rng -> Q * rng)
      (daily_sin : Z -> Q) (start_date : datetime) (g : rng) (lo len : Z)
      (i : nat) (r : Row) :
  nth_error (sample_rows rand daily_sin start_date g lo len) i = Some r <->
  Z.of_nat i < len /\ r = sample_row rand daily_sin start_date g (lo + Z.of_nat i).
Proof.
  unfold sample_rows, zrange. rewrite nth_error_map.
  destruct (Nat.lt_ge_cases i (Z.to_nat len)) as [Hlt|Hge].
  - rewrite nth_error_zrange_from by assumption. cbn [option_map]. split.
    + intros [= <-]. split; [lia | reflexivity].
    + intros [_ ->]. reflexivity.
  - rewrite (proj2 (nth_error_None _ _))
      by (rewrite zrange_from_length; assumption).
    cbn [option_map]. split; [discriminate | lia].
Qed.

(** C10: from a start date at midnight and for [num_days >= 0], the
    generator returns [num_days * 86400] samples; the sample at position
    [k] is stamped [k] seconds after the start, so that consecutive samples
    are one second apart, timestamps increase strictly, and the dates of
    the samples are exactly the [num_days] days from the start date on. *)
Theorem generate_mock_data_regular {rng : Type} (rand : rng -> Q * rng)
        (daily_sin : Z -> Q) (g : rng) (d0 num_days : Z) :
  0 <= num_days ->
  Z.of_nat (List.length
              (fst (generate_mock_data rand daily_sin (midnight d0) num_days g)))
  = num_days * 86400
  /\ (forall (i : nat) (r : Row),
         nth_error (fst (generate_mock_data rand daily_sin (midnight d0)
                                            num_days g)) i = Some r ->
         timestamp r = of_seconds (to_seconds (midnight d0) + Z.of_nat i))
  /\ (forall (i : nat) (r r' : Row),
         nth_error (fst (generate_mock_data rand daily_sin (midnight d0)
                                            num_days g)) i = Some r ->
         nth_error (fst (generate_mock_data rand daily_sin (midnight d0)
                                            num_days g)) (S i) = Some r' ->
         to_seconds (timestamp r') = to_seconds (timestamp r) + 1)
  /\ (forall (i j : nat) (r r' : Row),
         (i < j)%nat ->
         nth_error (fst (generate_mock_data rand daily_sin (midnight d0)
                                            num_days g)) i = Some r ->
         nth_error (fst (generate_mock_data rand daily_sin (midnight d0)
                                            num_days g)) j = Some r' ->
         to_seconds (timestamp r) < to_seconds (timestamp r'))
  /\ (forall d : Z,
         d0 <= d < d0 + num_days <->
         exists r, In r (fst (generate_mock_data rand daily_sin (midnight d0)
                                                 num_days g))
                   /\ row_date r = d).
Proof.
  intros Hn. rewrite generate_mock_data_frame by assumption.
  split; [| split; [| split; [| split]]].
  - rewrite sample_rows_length by lia. lia.
  - intros i r Hr. apply nth_error_sample_rows in Hr as [_ ->].
    reflexivity.
  - intros i r r' Hr Hr'.
    apply nth_error_sample_rows in Hr as [_ ->].
    apply nth_error_sample_rows in Hr' as [_ ->].
    rewrite !to_seconds_sample. lia.
  - intros i j r r' Hij Hr Hr'.
    apply nth_error_sample_rows in Hr as [_ ->].
    apply nth_error_sample_rows in Hr' as [_ ->].
    rewrite !to_seconds_sample. lia.
  - intros d. split.
    + intros Hd.
      exists (sample_row rand daily_sin (midnight d0) g (86400 * (d - d0))).
      split.
      * apply in_sample_rows. exists (86400 * (d - d0)). split; [lia | reflexivity].
      * rewrite row_date_sample. Z.div_mod_to_equations. lia.
    + intros (r & Hr & <-). apply in_sample_rows in Hr as (k & Hk & ->).
      rewrite row_date_sample. Z.div_mod_to_equations. lia.
Qed.

Lemma generate_mock_data_regular_witness :
  0 <= 7
  /\ Z.of_nat (List.length
                 (fst (generate_mock_data example_rand example_sin
                                          (midnight (ymd2ord 2024 1 1)) 7 0)))
     = 7 * 86400.
Proof.
  assert (H : 0 <= 7) by lia.
  split; [exact H|].
  exact (proj1 (generate_mock_data_regular example_rand example_sin 0
                                           (ymd2ord 2024 1 1) 7 H)).
Defined.

(** ** Daily and hourly means *)

(** C6: for a date [d] of the series, the frame of daily averages has one
    row for [d], whose value is the mean of the values of exactly the
    samples dated [d], and there are 86400 such samples. *)
Theorem daily_avg_is_mean_of_day {rng : Type} (rand : rng -> Q * rng)
        (daily_sin : Z -> Q) (g : rng) (d0 num_days d : Z) :
  d0 <= d < d0 + num_days ->
  filter (fun r => d_date r =? d)
         (daily_avg (fst (generate_mock_data rand daily_sin (midnight d0)
                                             num_days g)))
  = [mkDailyRow
       d
       (mean (map value
                  (filter (fun r => row_date r =? d)
                          (fst (generate_mock_data rand daily_sin (midnight d0)
                                                   num_days g)))))
       (midnight d)]
  /\ Z.of_nat (List.length
                 (filter (fun r => row_date r =? d)
                         (fst (generate_mock_data rand daily_sin (midnight d0)
                                                  num_days g))))
     = 86400.
Proof.
  intros Hd. rewrite generate_mock_data_frame by lia.
  rewrite filter_date_frame by lia.
  rewrite daily_avg_frame by lia. split.
  - rewrite filter_map_swap. cbn [d_date].
    rewrite (filter_zrange_single _ 0 num_days (d - d0)).
    + cbn [map]. replace (d0 + (d - d0)) with d by lia. reflexivity.
    + intros k Hk. rewrite Z.eqb_eq. lia.
    + lia.
  - apply sample_rows_length. lia.
Qed.

Lemma daily_avg_is_mean_of_day_witness :
  ymd2ord 2024 1 1 <= ymd2ord 2024 1 3 < ymd2ord 2024 1 1 + 7
  /\ Z.of_nat (List.length
                 (filter (fun r => row_date r =? ymd2ord 2024 1 3)
                         (fst (generate_mock_data example_rand example_sin
                                                  (midnight (ymd2ord 2024 1 1))
                                                  7 0))))
     = 86400.
Proof.
  assert (H : ymd2ord 2024 1 1 <= ymd2ord 2024 1 3 < ymd2ord 2024 1 1 + 7)
    by (vm_compute; split; [discriminate | reflexivity]).
  split; [exact H|].
  exact (proj2 (daily_avg_is_mean_of_day example_rand example_sin 0
                                         (ymd2ord 2024 1 1) 7
                                         (ymd2ord 2024 1 3) H)).
Defined.

(** ** The points of the charts *)

Lemma daily_chart_points (df : DataFrame) (d : Z) :
  figure_x (create_daily_chart df d)
  = map h_timestamp
        (filter (fun r => date (h_timestamp r) =? d) (hourly_avg df))
  /\ figure_y (create_daily_chart df d)
     = map h_value
           (filter (fun r => date (h_timestamp r) =? d) (hourly_avg df)).
Proof. split; reflexivity. Qed.

(** The hourly and the second chart show the rows of the frame stamped
    in a window of 3600 and of 60 seconds. *)
Lemma hourly_chart_points (df : DataFrame) (d h : Z) :
  figure_x (create_hourly_chart df d h)
  = map timestamp
        (filter (fun r =>
                   geb (timestamp r) (add (midnight d) (Timedelta_hours h))
                   && ltb (timestamp r)
                          (add (add (midnight d) (Timedelta_hours h))
                               (Timedelta_hours 1)))
                df)
  /\ figure_y (create_hourly_chart df d h)
     = map value
           (filter (fun r =>
                      geb (timestamp r) (add (midnight d) (Timedelta_hours h))
                      && ltb (timestamp r)
                             (add (add (midnight d) (Timedelta_hours h))
                                  (Timedelta_hours 1)))
                   df).
Proof. split; reflexivity. Qed.

Lemma second_chart_points (df : DataFrame) (start_time : datetime) :
  figure_x (create_second_chart df start_time)
  = map timestamp
        (filter (fun r =>
                   geb (timestamp r) start_time
                   && ltb (timestamp r) (add start_time (Timedelta_minutes 1)))
                df)
  /\ figure_y (create_second_chart df start_time)
     = map value
           (filter (fun r =>
                      geb (timestamp r) start_time
                      && ltb (timestamp r) (add start_time (Timedelta_minutes 1)))
                   df).
Proof. split; reflexivity. Qed.

Lemma sample_rows_snoc {rng : Type} (rand : rng -> Q * rng)
      (daily_sin : Z -> Q) (start_date : datetime) (g : rng) (lo len : Z) :
  0 < len ->
  sample_rows rand daily_sin start_date g lo len
  = sample_rows rand daily_sin start_date g lo (len - 1)
    ++ [sample_row rand daily_sin start_date g (lo + (len - 1))].
Proof.
  intros H. unfold sample_rows.
  replace len with ((len - 1) + 1) at 1 by lia.
  rewrite zrange_app by lia. rewrite map_app, zrange_one. reflexivity.
Qed.

(** The timestamp of a sample, given its date, hour and second of the
    hour. *)
Lemma timestamp_sample_in_hour {rng : Type} (rand : rng -> Q * rng)
      (daily_sin : Z -> Q) (g : rng) (d0 d h s : Z) :
  0 <= h < 24 -> 0 <= s < 3600 ->
  timestamp (sample_row rand daily_sin (midnight d0) g
                        (86400 * (d - d0) + 3600 * h + s))
  = mkDatetime d h (s / 60) (s mod 60).
Proof.
  intros Hh Hs. cbn [sample_row timestamp]. rewrite to_seconds_midnight.
  replace (d0 * 86400 + (86400 * (d - d0) + 3600 * h + s))
    with (to_seconds (mkDatetime d h (s / 60) (s mod 60))).
  - apply of_seconds_to_seconds. unfold valid.
    cbn [dt_hour dt_minute dt_second]. Z.div_mod_to_equations. lia.
  - unfold to_seconds. cbn [dt_date dt_hour dt_minute dt_second].
    Z.div_mod_to_equations. lia.
Qed.

(** C8: for a date and an hour of the series, the hourly chart shows 3600
    samples; the first is stamped at the top of the hour, the last and all
    others less than one hour later. *)
Theorem hourly_chart_window {rng : Type} (rand : rng -> Q * rng)
        (daily_sin : Z -> Q) (g : rng) (d0 num_days d h : Z) :
  d0 <= d < d0 + num_days -> 0 <= h < 24 ->
  hd_error (figure_x (create_hourly_chart
                        (fst (generate_mock_data rand daily_sin (midnight d0)
                                                 num_days g)) d h))
  = Some (mkDatetime d h 0 0)
  /\ ltb (last (figure_x (create_hourly_chart
                            (fst (generate_mock_data rand daily_sin
                                                     (midnight d0) num_days g))
                            d h))
               (midnight 0))
         (add (mkDatetime d h 0 0) (Timedelta_hours 1)) = true
  /\ (forall t,
         In t (figure_x (create_hourly_chart
                           (fst (generate_mock_data rand daily_sin
                                                    (midnight d0) num_days g))
                           d h)) ->
         to_seconds (mkDatetime d h 0 0) <= to_seconds t
         < to_seconds (mkDatetime d h 0 0) + 3600)
  /\ Z.of_nat (List.length
                 (figure_x (create_hourly_chart
                              (fst (generate_mock_data rand daily_sin
                                                       (midnight d0) num_days g))
                              d h)))
     = 3600
  /\ Z.of_nat (List.length
                 (figure_y (create_hourly_chart
                              (fst (generate_mock_data rand daily_sin
                                                       (midnight d0) num_days g))
                              d h)))
     = 3600.
Proof.
  intros Hd Hh. rewrite generate_mock_data_frame by lia.
  destruct (hourly_chart_points
              (sample_rows rand daily_sin (midnight d0) g 0 (86400 * num_days))
              d h) as [-> ->].
  rewrite (filter_time_window rng rand daily_sin g d0 num_days _ _
             (86400 * (d - d0) + 3600 * h)
             (86400 * (d - d0) + 3600 * h + 3600)).
  2: { rewrite to_seconds_add, to_seconds_midnight. unfold Timedelta_hours. lia. }
  2: { rewrite !to_seconds_add, to_seconds_midnight. unfold Timedelta_hours. lia. }
  2-4: lia.
  replace (86400 * (d - d0) + 3600 * h + 3600 - (86400 * (d - d0) + 3600 * h))
    with 3600 by lia.
  assert (Hstart : to_seconds (mkDatetime d h 0 0) = d * 86400 + h * 3600).
  { unfold to_seconds. cbn [dt_date dt_hour dt_minute dt_second]. lia. }
  split; [| split; [| split; [| split]]].
  - rewrite sample_rows_cons by lia. cbn [map hd_error]. f_equal.
    replace (86400 * (d - d0) + 3600 * h)
      with (86400 * (d - d0) + 3600 * h + 0) by lia.
    now rewrite timestamp_sample_in_hour by lia.
  - rewrite sample_rows_snoc by lia. rewrite map_app. cbn [map].
    rewrite last_last. unfold ltb.
    rewrite to_seconds_sample, to_seconds_add, to_seconds_midnight, Hstart.
    unfold Timedelta_hours. apply Z.ltb_lt. lia.
  - intros t Ht. apply in_map_iff in Ht as (r & <- & Hr).
    apply in_sample_rows in Hr as (k & Hk & ->).
    rewrite to_seconds_sample, to_seconds_midnight, Hstart. lia.
  - rewrite length_map. apply sample_rows_length. lia.
  - rewrite length_map. apply sample_rows_length. lia.
Qed.

Lemma hourly_chart_window_witness :
  (ymd2ord 2024 1 1 <= ymd2ord 2024 1 3 < ymd2ord 2024 1 1 + 7)
  /\ 0 <= 14 < 24
  /\ hd_error (figure_x (create_hourly_chart
                           (fst (generate_mock_data example_rand example_sin
                                                    (midnight (ymd2ord 2024 1 1))
                                                    7 0))
                           (ymd2ord 2024 1 3) 14))
     = Some (mkDatetime (ymd2ord 2024 1 3) 14 0 0).
Proof.
  assert (H : ymd2ord 2024 1 1 <= ymd2ord 2024 1 3 < ymd2ord 2024 1 1 + 7)
    by (vm_compute; split; [discriminate | reflexivity]).
  assert (H' : 0 <= 14 < 24) by lia.
  split; [exact H|]. split; [exact H'|].
  exact (proj1 (hourly_chart_window example_rand example_sin 0
                                    (ymd2ord 2024 1 1) 7 (ymd2ord 2024 1 3) 14
                                    H H')).
Defined.

(** The second chart, with its window written in seconds. *)
Lemma second_chart_window (df : DataFrame) (start_time : datetime) :
  figure_x (create_second_chart df start_time)
  = map timestamp
        (filter (fun r =>
                   (to_seconds start_time <=? to_seconds (timestamp r))
                   && (to_seconds (timestamp r) <? to_seconds start_time + 60))
                df)
  /\ figure_y (create_second_chart df start_time)
     = map value
           (filter (fun r =>
                      (to_seconds start_time <=? to_seconds (timestamp r))
                      && (to_seconds (timestamp r) <? to_seconds start_time + 60))
                   df).
Proof.
  destruct (second_chart_points df start_time) as [-> ->].
  assert (E : forall r,
             geb (timestamp r) start_time
             && ltb (timestamp r) (add start_time (Timedelta_minutes 1))
             = (to_seconds start_time <=? to_seconds (timestamp r))
               && (to_seconds (timestamp r) <? to_seconds start_time + 60)).
  { intros r. unfold geb, ltb. rewrite to_seconds_add. reflexivity. }
  split; f_equal; apply filter_ext; exact E.
Qed.

(** C9: a click at [t] in the hourly view gives the second view, and its
    chart shows exactly the rows of the frame stamped in the 60 seconds that
    start at the date and hour of [t], minute 0, second 0, whatever the
    minute and second of [t]; when that hour is in the series these are the
    60 samples of the first minute of the hour. *)
Theorem second_chart_first_minute {rng : Type} (rand : rng -> Q * rng)
        (daily_sin : Z -> Q) (g : rng) (d0 num_days : Z) (prop_id : string)
        (rest : list string) (cd : ClickData) (t : datetime) (n_clicks : Z) :
  split_dot_first prop_id = "chart"%string ->
  clicked_x cd = Ok t ->
  valid t ->
  d0 <= date t < d0 + num_days ->
  exists fig : Figure,
    update_graph (fst (generate_mock_data rand daily_sin (midnight d0)
                                          num_days g))
                 (prop_id :: rest) (Some cd) n_clicks "hourly"
    = Ok (fig, "second"%string)
    /\ figure_x fig
       = map timestamp
             (filter (fun r =>
                        (to_seconds (mkDatetime (date t) (hour t) 0 0)
                         <=? to_seconds (timestamp r))
                        && (to_seconds (timestamp r)
                            <? to_seconds (mkDatetime (date t) (hour t) 0 0) + 60))
                     (fst (generate_mock_data rand daily_sin (midnight d0)
                                              num_days g)))
    /\ figure_y fig
       = map value
             (filter (fun r =>
                        (to_seconds (mkDatetime (date t) (hour t) 0 0)
                         <=? to_seconds (timestamp r))
                        && (to_seconds (timestamp r)
                            <? to_seconds (mkDatetime (date t) (hour t) 0 0) + 60))
                     (fst (generate_mock_data rand daily_sin (midnight d0)
                                              num_days g)))
    /\ figure_x fig
       = map (fun s => mkDatetime (date t) (hour t) 0 s) (range 60).
Proof.
  intros Hid Hx (Hh & _ & _) Hd.
  destruct (update_graph_select
              (fst (generate_mock_data rand daily_sin (midnight d0) num_days g))
              prop_id rest cd t n_clicks Hid Hx) as (_ & _ & Hsel).
  eexists. split; [exact Hsel|].
  destruct (second_chart_window
              (fst (generate_mock_data rand daily_sin (midnight d0) num_days g))
              (mkDatetime (date t) (hour t) 0 0)) as [Ex Ey].
  split; [exact Ex|]. split; [exact Ey|].
  destruct (second_chart_points
              (fst (generate_mock_data rand daily_sin (midnight d0) num_days g))
              (mkDatetime (date t) (hour t) 0 0)) as [-> _].
  rewrite generate_mock_data_frame by lia.
  assert (Hhour : 0 <= hour t < 24) by exact Hh.
  remember (86400 * (date t - d0) + 3600 * hour t) as a eqn:Ha.
  assert (Hstart : to_seconds (mkDatetime (date t) (hour t) 0 0)
                   = d0 * 86400 + a).
  { unfold to_seconds, date, hour in *.
    cbn [dt_date dt_hour dt_minute dt_second]. lia. }
  rewrite (filter_time_window rng rand daily_sin g d0 num_days _ _ a (a + 60)).
  2: exact Hstart.
  2: { rewrite to_seconds_add, Hstart. unfold Timedelta_minutes. lia. }
  2-4: lia.
  replace (a + 60 - a) with 60 by lia.
  unfold sample_rows, range. rewrite map_map.
  replace a with (a + 0) at 1 by lia.
  rewrite <- (map_zrange_shift
                (fun k => timestamp (sample_row rand daily_sin (midnight d0) g k))).
  apply map_ext_in. intros s Hs. apply in_zrange in Hs.
  replace (a + s) with (86400 * (date t - d0) + 3600 * hour t + s) by lia.
  rewrite timestamp_sample_in_hour by lia.
  rewrite Z.div_small, Z.mod_small by lia. reflexivity.
Qed.

Lemma second_chart_first_minute_witness :
  split_dot_first "chart.clickData" = "chart"%string
  /\ clicked_x example_click = Ok (mkDatetime (ymd2ord 2024 1 3) 14 52 10)
  /\ valid (mkDatetime (ymd2ord 2024 1 3) 14 52 10)
  /\ (ymd2ord 2024 1 1 <= date (mkDatetime (ymd2ord 2024 1 3) 14 52 10)
      < ymd2ord 2024 1 1 + 7)
  /\ exists fig : Figure,
      update_graph (fst (generate_mock_data example_rand example_sin
                                            (midnight (ymd2ord 2024 1 1)) 7 0))
                   ["chart.clickData"%string] (Some example_click) 0 "hourly"
      = Ok (fig, "second"%string)
      /\ figure_x fig
         = map (fun s => mkDatetime (ymd2ord 2024 1 3) 14 0 s) (range 60).
Proof.
  assert (Hv : valid (mkDatetime (ymd2ord 2024 1 3) 14 52 10)).
  { unfold valid. cbn [dt_hour dt_minute dt_second]. lia. }
  assert (Hd : ymd2ord 2024 1 1 <= date (mkDatetime (ymd2ord 2024 1 3) 14 52 10)
               < ymd2ord 2024 1 1 + 7)
    by (vm_compute; split; [discriminate | reflexivity]).
  split; [reflexivity|]. split; [reflexivity|].
  split; [exact Hv|]. split; [exact Hd|].
  destruct (second_chart_first_minute
              example_rand example_sin 0 (ymd2ord 2024 1 1) 7
              "chart.clickData" [] example_click
              (mkDatetime (ymd2ord 2024 1 3) 14 52 10) 0
              eq_refl eq_refl Hv Hd) as (fig & Hfig & _ & _ & Hx).
  exists fig. split; [exact Hfig | exact Hx].
Defined.

(** ** Clicks outside the series *)

Lemma hourly_timestamp_date (d h : Z) :
  0 <= h < 24 -> date (add (midnight d) (Timedelta_hours h)) = d.
Proof. intros Hh. now rewrite add_midnight_hours. Qed.

(** C2, as the callback behaves: a click whose date is outside the series
    raises no error and does not return to the weekly view; the callback
    moves to the next finer view, daily, hourly or second, and the chart it
    returns has no points. *)
Theorem out_of_span_click_gives_empty_chart {rng : Type}
        (rand : rng -> Q * rng) (daily_sin : Z -> Q) (g : rng)
        (d0 num_days : Z) (prop_id : string) (rest : list string)
        (cd : ClickData) (t : datetime) (n_clicks : Z) :
  0 <= num_days ->
  split_dot_first prop_id = "chart"%string ->
  clicked_x cd = Ok t ->
  valid t ->
  date t < d0 \/ d0 + num_days <= date t ->
  (exists fig : Figure,
      update_graph (fst (generate_mock_data rand daily_sin (midnight d0)
                                            num_days g))
                   (prop_id :: rest) (Some cd) n_clicks "weekly"
      = Ok (fig, "daily"%string)
      /\ figure_x fig = [] /\ figure_y fig = [])
  /\ (exists fig : Figure,
         update_graph (fst (generate_mock_data rand daily_sin (midnight d0)
                                               num_days g))
                      (prop_id :: rest) (Some cd) n_clicks "daily"
         = Ok (fig, "hourly"%string)
         /\ figure_x fig = [] /\ figure_y fig = [])
  /\ (exists fig : Figure,
         update_graph (fst (generate_mock_data rand daily_sin (midnight d0)
                                               num_days g))
                      (prop_id :: rest) (Some cd) n_clicks "hourly"
         = Ok (fig, "second"%string)
         /\ figure_x fig = [] /\ figure_y fig = []).
Proof.
  intros Hn Hid Hx (Hh & _ & _) Hout.
  destruct (update_graph_select
              (fst (generate_mock_data rand daily_sin (midnight d0) num_days g))
              prop_id rest cd t n_clicks Hid Hx) as (Hw & Hd & Hs).
  assert (Hhour : 0 <= hour t < 24) by exact Hh.
  remember (86400 * (date t - d0) + 3600 * hour t) as a eqn:Ha.
  assert (Hstart : to_seconds (add (midnight (date t)) (Timedelta_hours (hour t)))
                   = d0 * 86400 + a).
  { rewrite to_seconds_add, to_seconds_midnight. unfold Timedelta_hours. lia. }
  assert (Hstart' : to_seconds (mkDatetime (date t) (hour t) 0 0)
                    = d0 * 86400 + a).
  { rewrite <- Hstart, add_midnight_hours by assumption. reflexivity. }
  split; [| split].
  - eexists. split; [exact Hw|].
    destruct (daily_chart_points
                (fst (generate_mock_data rand daily_sin (midnight d0) num_days g))
                (date t)) as [-> ->].
    rewrite generate_mock_data_frame, hourly_avg_frame by assumption.
    rewrite filter_map_swap. cbn [h_timestamp].
    rewrite filter_none; [split; reflexivity|].
    intros j Hj. apply in_zrange in Hj.
    rewrite hourly_timestamp_date by (Z.div_mod_to_equations; lia).
    apply Z.eqb_neq. Z.div_mod_to_equations. lia.
  - eexists. split; [exact Hd|].
    destruct (hourly_chart_points
                (fst (generate_mock_data rand daily_sin (midnight d0) num_days g))
                (date t) (hour t)) as [-> ->].
    rewrite generate_mock_data_frame by assumption.
    rewrite (filter_time_window_outside rng rand daily_sin g d0 num_days _ _
               a (a + 3600)).
    + split; reflexivity.
    + exact Hstart.
    + rewrite to_seconds_add, Hstart. unfold Timedelta_hours. lia.
    + lia.
  - eexists. split; [exact Hs|].
    destruct (second_chart_points
                (fst (generate_mock_data rand daily_sin (midnight d0) num_days g))
                (mkDatetime (date t) (hour t) 0 0)) as [-> ->].
    rewrite generate_mock_data_frame by assumption.
    rewrite (filter_time_window_outside rng rand daily_sin g d0 num_days _ _
               a (a + 60)).
    + split; reflexivity.
    + exact Hstart'.
    + rewrite to_seconds_add, Hstart'. unfold Timedelta_minutes. lia.
    + lia.
Qed.

Lemma out_of_span_click_gives_empty_chart_witness :
  0 <= 7
  /\ split_dot_first "chart.clickData" = "chart"%string
  /\ clicked_x example_click_before = Ok (midnight (ymd2ord 2023 12 31))
  /\ valid (midnight (ymd2ord 2023 12 31))
  /\ (date (midnight (ymd2ord 2023 12 31)) < ymd2ord 2024 1 1
      \/ ymd2ord 2024 1 1 + 7 <= date (midnight (ymd2ord 2023 12 31)))
  /\ exists fig : Figure,
      update_graph (fst (generate_mock_data example_rand example_sin
                                            (midnight (ymd2ord 2024 1 1)) 7 0))
                   ["chart.clickData"%string] (Some example_click_before) 0
                   "weekly"
      = Ok (fig, "daily"%string)
      /\ figure_x fig = [] /\ figure_y fig = [].
Proof.
  assert (Hn : 0 <= 7) by lia.
  assert (Hv : valid (midnight (ymd2ord 2023 12 31))).
  { unfold valid, midnight. cbn [dt_hour dt_minute dt_second]. lia. }
  assert (Hd : date (midnight (ymd2ord 2023 12 31)) < ymd2ord 2024 1 1
               \/ ymd2ord 2024 1 1 + 7 <= date (midnight (ymd2ord 2023 12 31)))
    by (left; vm_compute; reflexivity).
  split; [exact Hn|]. split; [reflexivity|]. split; [reflexivity|].
  split; [exact Hv|]. split; [exact Hd|].
  exact (proj1 (out_of_span_click_gives_empty_chart
                  example_rand example_sin 0 (ymd2ord 2024 1 1) 7
                  "chart.clickData" [] example_click_before
                  (midnight (ymd2ord 2023 12 31)) 0
                  Hn eq_refl eq_refl Hv Hd)).
Defined.

(** C2 fails: a click on the day before the series starts, in the weekly
    view, does not give the weekly view. *)
Lemma out_of_span_click_counterexample :
  update_graph example_df ["chart.clickData"%string]
               (Some example_click_before) 0 "weekly"
  <> Ok (create_weekly_chart example_df, "weekly"%string).
Proof.
  destruct (update_graph_select example_df "chart.clickData" []
                                example_click_before
                                (midnight (ymd2ord 2023 12 31)) 0
                                eq_refl eq_refl) as (H & _).
  rewrite H. intros E.
  apply (f_equal (fun r : result (Figure * string) =>
                    match r with Ok (_, view) => view | Raise _ => EmptyString end))
    in E.
  cbv beta iota in E. discriminate E.
Qed.

(** ** Hourly means *)

(** A day of samples is its 24 hours of samples, one after the other. *)
Lemma day_values_by_hour {rng : Type} (rand : rng -> Q * rng)
      (daily_sin : Z -> Q) (g : rng) (start_date : datetime) (i : Z) :
  map value (sample_rows rand daily_sin start_date g (86400 * i) 86400)
  = List.concat
      (map (fun j => map value (sample_rows rand daily_sin start_date g
                                            (3600 * j) 3600))
           (zrange (24 * i) 24)).
Proof.
  unfold sample_rows.
  replace (86400 * i) with (3600 * (24 * i)) by lia.
  change 86400 with (3600 * Z.of_nat 24).
  rewrite zrange_blocks by lia.
  rewrite !concat_map, !map_map. reflexivity.
Qed.

(** The hourly averages of a generated series: one row for each date and
    hour of the series, with the mean of the values of exactly the samples of
    that date and hour, of which there are 3600; the rows of a date are
    those of the hours 0 to 23. *)
Lemma hourly_avg_of_series {rng : Type} (rand : rng -> Q * rng)
      (daily_sin : Z -> Q) (g : rng) (d0 num_days d h : Z) :
  d0 <= d < d0 + num_days -> 0 <= h < 24 ->
  filter (fun r => (h_date r =? d) && (h_hour r =? h))
         (hourly_avg (fst (generate_mock_data rand daily_sin (midnight d0)
                                              num_days g)))
  = [mkHourlyRow
       d h
       (mean (map value
                  (filter (fun r => (row_date r =? d) && (row_hour r =? h))
                          (fst (generate_mock_data rand daily_sin (midnight d0)
                                                   num_days g)))))
       (mkDatetime d h 0 0)]
  /\ Z.of_nat (List.length
                 (filter (fun r => (row_date r =? d) && (row_hour r =? h))
                         (fst (generate_mock_data rand daily_sin (midnight d0)
                                                  num_days g))))
     = 3600
  /\ map h_hour
         (filter (fun r => h_date r =? d)
                 (hourly_avg (fst (generate_mock_data rand daily_sin
                                                      (midnight d0) num_days g))))
     = range 24.
Proof.
  intros Hd Hh. rewrite generate_mock_data_frame by lia.
  rewrite filter_date_hour_frame by lia.
  rewrite hourly_avg_frame by lia.
  assert (Hday : filter (fun j => d0 + j / 24 =? d) (zrange 0 (24 * num_days))
                 = zrange (24 * (d - d0)) 24).
  { rewrite (filter_ext_in _ (fun j => (24 * (d - d0) <=? j)
                                       && (j <? 24 * (d - d0) + 24))).
    - rewrite filter_zrange_window by lia. f_equal. lia.
    - intros j Hj. apply in_zrange in Hj. apply Bool.eq_true_iff_eq.
      rewrite Z.eqb_eq, andb_true_iff, Z.leb_le, Z.ltb_lt.
      Z.div_mod_to_equations. lia. }
  split; [| split].
  - rewrite filter_map_swap. cbn [h_date h_hour].
    rewrite (filter_zrange_single _ 0 (24 * num_days) (24 * (d - d0) + h)).
    + cbn [map].
      replace (d0 + (24 * (d - d0) + h) / 24) with d
        by (Z.div_mod_to_equations; lia).
      replace ((24 * (d - d0) + h) mod 24) with h
        by (Z.div_mod_to_equations; lia).
      rewrite add_midnight_hours by assumption.
      replace (3600 * (24 * (d - d0) + h))
        with (86400 * (d - d0) + 3600 * h) by lia.
      reflexivity.
    + intros j Hj. rewrite andb_true_iff, !Z.eqb_eq.
      Z.div_mod_to_equations. lia.
    + lia.
  - apply sample_rows_length. lia.
  - rewrite filter_map_swap. cbn [h_date]. rewrite Hday, map_map. cbn [h_hour].
    unfold range.
    replace (24 * (d - d0)) with (24 * (d - d0) + 0) by lia.
    rewrite <- (map_zrange_shift (fun j => j mod 24)).
    rewrite <- (map_id (zrange 0 24)) at 2.
    apply map_ext_in. intros j Hj. apply in_zrange in Hj.
    Z.div_mod_to_equations. lia.
Qed.

(** * Further properties *)

(** ** Grouping any frame *)

Section GroupByAnyFrame.

Variables (K A : Type).
Variable cmp : K -> K -> comparison.
Variable keqb : K -> K -> bool.
Variable key : A -> K.
Hypothesis keqb_eq : forall a b, keqb a b = true <-> a = b.
Hypothesis cmp_eq : forall a b, cmp a b = Eq <-> a = b.
Hypothesis cmp_trans :
  forall a b c, cmp a b = Lt -> cmp b c = Lt -> cmp a c = Lt.
Hypothesis cmp_antisym : forall a b, cmp a b = CompOpp (cmp b a).

Lemma cmp_lt_irrefl (k : K) : cmp k k <> Lt.
Proof. rewrite (proj2 (cmp_eq k k) eq_refl). discriminate. Qed.

Lemma group_insert_has_key (k : K) (a : A) (gs : list (K * list A)) :
  exists l, In (k, l) (group_insert cmp k a gs).
Proof.
  induction gs as [|[k1 l1] gs IH]; cbn [group_insert].
  - exists [a]. now left.
  - destruct (cmp k k1) eqn:E.
    + apply cmp_eq in E as <-. exists (l1 ++ [a]). now left.
    + exists [a]. now left.
    + destruct IH as [l Hl]. exists l. now right.
Qed.

Lemma group_insert_keeps (k k' : K) (a : A) (l : list A)
      (gs : list (K * list A)) :
  k' <> k -> In (k', l) gs -> In (k', l) (group_insert cmp k a gs).
Proof.
  intros Hne. induction gs as [|[k1 l1] gs IH]; cbn [group_insert]; [easy|].
  intros [[= -> ->] | Hin].
  - destruct (cmp k k') eqn:E.
    + apply cmp_eq in E. congruence.
    + right. now left.
    + now left.
  - destruct (cmp k k1); [now right | right; now right | right; now apply IH].
Qed.

(** Where a group of the result of an insertion comes from. *)
Lemma group_insert_inv (k k' : K) (a : A) (l' : list A)
      (gs : list (K * list A)) :
  StronglySorted (fun x y => cmp x y = Lt) (map fst gs) ->
  In (k', l') (group_insert cmp k a gs) ->
  (k' <> k /\ In (k', l') gs)
  \/ (k' = k
      /\ ((exists l, In (k, l) gs /\ l' = l ++ [a])
          \/ ((forall l, ~ In (k, l) gs) /\ l' = [a]))).
Proof.
  induction gs as [|[k1 l1] gs IH]; cbn [group_insert map fst]; intros Hs Hin.
  - destruct Hin as [[= <- <-] | []]. right. split; [reflexivity|].
    right. split; [intros l [] | reflexivity].
  - apply StronglySorted_inv in Hs as [Hs Hall].
    rewrite Forall_forall in Hall.
    assert (Hlater : forall l, In (k, l) gs -> cmp k1 k = Lt).
    { intros l Hl. apply Hall. change k with (fst (k, l)). now apply in_map. }
    destruct (cmp k k1) eqn:E.
    + apply cmp_eq in E as <-. destruct Hin as [[= <- <-] | Hin].
      * right. split; [reflexivity|]. left. exists l1. split; [now left | reflexivity].
      * left. split; [| now right]. intros ->.
        apply (cmp_lt_irrefl k), (Hlater l' Hin).
    + assert (Hnot : forall l, ~ In (k, l) ((k1, l1) :: gs)).
      { intros l [[= -> ->] | Hl].
        - now apply (cmp_lt_irrefl k).
        - apply (cmp_lt_irrefl k), (cmp_trans k k1 k E), (Hlater l Hl). }
      destruct Hin as [[= <- <-] | Hin].
      * right. split; [reflexivity|]. right. split; [exact Hnot | reflexivity].
      * left. split; [| exact Hin]. intros ->. exact (Hnot l' Hin).
    + destruct Hin as [[= <- <-] | Hin].
      * left. split; [| now left]. intros ->.
        rewrite (proj2 (cmp_eq k k) eq_refl) in E. discriminate.
      * destruct (IH Hs Hin) as [[Hne Hg] | [-> [(l & Hl & ->) | [Hno ->]]]].
        -- left. split; [exact Hne | now right].
        -- right. split; [reflexivity|]. left. exists l. split; [now right | reflexivity].
        -- right. split; [reflexivity|]. right. split; [| reflexivity].
           intros l [[= -> ->] | Hl]; [| exact (Hno l Hl)].
           rewrite (proj2 (cmp_eq k k) eq_refl) in E. discriminate.
Qed.

Lemma group_insert_keys (k : K) (a : A) (gs : list (K * list A)) (k' : K) :
  In k' (map fst (group_insert cmp k a gs)) -> k' = k \/ In k' (map fst gs).
Proof.
  induction gs as [|[k1 l1] gs IH]; cbn [group_insert map fst In].
  - intros [<- | []]. now left.
  - destruct (cmp k k1) eqn:E; cbn [map fst In].
    + intros [<- | H]; right; [now left | now right].
    + intros [<- | [<- | H]]; [now left | right; now left | right; now right].
    + intros [<- | H]; [right; now left|].
      destruct (IH H) as [-> | H']; [now left | right; now right].
Qed.

Lemma group_insert_sorted (k : K) (a : A) (gs : list (K * list A)) :
  StronglySorted (fun x y => cmp x y = Lt) (map fst gs) ->
  StronglySorted (fun x y => cmp x y = Lt) (map fst (group_insert cmp k a gs)).
Proof.
  induction gs as [|[k1 l1] gs IH]; cbn [group_insert map fst]; intros Hs.
  - repeat constructor.
  - pose proof Hs as Hs0. apply StronglySorted_inv in Hs as [Hs Hall].
    destruct (cmp k k1) eqn:E; cbn [map fst].
    + exact Hs0.
    + constructor; [exact Hs0|]. constructor; [exact E|].
      rewrite Forall_forall in *. intros k2 Hk2.
      apply (cmp_trans k k1 k2 E), Hall, Hk2.
    + constructor; [now apply IH|].
      rewrite Forall_forall in *. intros k2 Hk2.
      apply group_insert_keys in Hk2 as [-> | Hk2]; [| now apply Hall].
      rewrite cmp_antisym, E. reflexivity.
Qed.

(** The result of [groupby] on any rows: keys in strictly increasing order,
    each group made of the rows of its key, in their order, and never
    empty, and a group for the key of every row. *)
Lemma groupby_any (rows : list A) :
  StronglySorted (fun x y => cmp x y = Lt) (map fst (groupby cmp key rows))
  /\ (forall k l, In (k, l) (groupby cmp key rows) ->
                  l = filter (fun r => keqb (key r) k) rows /\ l <> [])
  /\ (forall r, In r rows -> exists l, In (key r, l) (groupby cmp key rows)).
Proof.
  induction rows as [|r rows IH] using rev_ind.
  - split; [constructor | split; [intros k l [] | intros r []]].
  - destruct IH as (Hs & Hg & Hr).
    assert (E : groupby cmp key (rows ++ [r])
                = group_insert cmp (key r) r (groupby cmp key rows)).
    { unfold groupby. now rewrite fold_left_app. }
    rewrite E. split; [now apply group_insert_sorted | split].
    + intros k l Hin. rewrite filter_app. cbn [filter].
      apply group_insert_inv in Hin
        as [[Hne Hin] | [-> [(l0 & Hl0 & ->) | [Hno ->]]]]; [| | | exact Hs].
      * destruct (Hg k l Hin) as [-> Hnil].
        destruct (keqb (key r) k) eqn:Ek.
        -- apply keqb_eq in Ek. congruence.
        -- rewrite app_nil_r. split; [reflexivity | exact Hnil].
      * destruct (Hg _ _ Hl0) as [-> _].
        rewrite (proj2 (keqb_eq (key r) (key r)) eq_refl).
        split; [reflexivity | now destruct (filter _ rows)].
      * rewrite (proj2 (keqb_eq (key r) (key r)) eq_refl).
        rewrite filter_none; [split; [reflexivity | discriminate]|].
        intros r' Hr'. destruct (keqb (key r') (key r)) eqn:Ek; [| reflexivity].
        apply keqb_eq in Ek. destruct (Hr r' Hr') as [l Hl].
        rewrite Ek in Hl. destruct (Hno l Hl).
    + intros r' Hr'. apply in_app_or in Hr' as [Hr' | [<- | []]].
      * destruct (Hr r' Hr') as [l Hl].
        destruct (keqb (key r') (key r)) eqn:Ek.
        -- apply keqb_eq in Ek. rewrite Ek. apply group_insert_has_key.
        -- exists l. apply group_insert_keeps; [| exact Hl].
           intros Heq. apply keqb_eq in Heq. congruence.
      * apply group_insert_has_key.
Qed.

End GroupByAnyFrame.

Lemma pair_compare_eq (a b : Z * Z) : pair_compare a b = Eq <-> a = b.
Proof.
  destruct a as [a1 a2], b as [b1 b2]. unfold pair_compare. cbn [fst snd].
  destruct (Z.compare_spec a1 b1) as [E|E|E].
  - rewrite Z.compare_eq_iff. split; [intros ->; now rewrite E | now intros [= _ ->]].
  - split; [discriminate | intros [= -> _]; lia].
  - split; [discriminate | intros [= -> _]; lia].
Qed.

Lemma pair_compare_lt (a b : Z * Z) :
  pair_compare a b = Lt <-> fst a < fst b \/ (fst a = fst b /\ snd a < snd b).
Proof.
  unfold pair_compare.
  destruct (Z.compare_spec (fst a) (fst b)) as [E|E|E].
  - rewrite Z.compare_lt_iff. lia.
  - split; [now left | reflexivity].
  - split; [discriminate | lia].
Qed.

Lemma pair_compare_trans (a b c : Z * Z) :
  pair_compare a b = Lt -> pair_compare b c = Lt -> pair_compare a c = Lt.
Proof. rewrite !pair_compare_lt. lia. Qed.

Lemma pair_compare_antisym (a b : Z * Z) :
  pair_compare a b = CompOpp (pair_compare b a).
Proof.
  unfold pair_compare. rewrite (Z.compare_antisym (fst a) (fst b)).
  destruct (fst a ?= fst b); cbn [CompOpp]; [| reflexivity | reflexivity].
  apply Z.compare_antisym.
Qed.

Lemma pair_eqb_eq (a b : Z * Z) :
  (fst a =? fst b) && (snd a =? snd b) = true <-> a = b.
Proof.
  destruct a, b. cbn [fst snd]. rewrite andb_true_iff, !Z.eqb_eq.
  split; [intros [-> ->]; reflexivity | intros [= -> ->]; split; reflexivity].
Qed.

Lemma Zcompare_trans (a b c : Z) :
  (a ?= b) = Lt -> (b ?= c) = Lt -> (a ?= c) = Lt.
Proof. rewrite !Z.compare_lt_iff. lia. Qed.

Lemma groupby_date_any (df : DataFrame) :
  StronglySorted Z.lt (map fst (groupby Z.compare row_date df))
  /\ (forall d l, In (d, l) (groupby Z.compare row_date df) ->
                  l = filter (fun r => row_date r =? d) df /\ l <> [])
  /\ (forall r, In r df ->
                exists l, In (row_date r, l) (groupby Z.compare row_date df)).
Proof.
  apply (groupby_any Z Row Z.compare Z.eqb row_date).
  - exact Z.eqb_eq.
  - exact Z.compare_eq_iff.
  - exact Zcompare_trans.
  - intros a b. apply Z.compare_antisym.
Qed.

Lemma groupby_date_hour_any (df : DataFrame) :
  StronglySorted (fun a b => pair_compare a b = Lt)
                 (map fst (groupby pair_compare
                                   (fun r => (row_date r, row_hour r)) df))
  /\ (forall k l,
         In (k, l) (groupby pair_compare (fun r => (row_date r, row_hour r)) df) ->
         l = filter (fun r => (row_date r =? fst k) && (row_hour r =? snd k)) df
         /\ l <> [])
  /\ (forall r, In r df ->
                exists l,
                  In ((row_date r, row_hour r), l)
                     (groupby pair_compare
                              (fun r => (row_date r, row_hour r)) df)).
Proof.
  apply (groupby_any (Z * Z) Row pair_compare
                     (fun a b => (fst a =? fst b) && (snd a =? snd b))
                     (fun r => (row_date r, row_hour r))).
  - exact pair_eqb_eq.
  - exact pair_compare_eq.
  - exact pair_compare_trans.
  - exact pair_compare_antisym.
Qed.

(** X1: whatever the frame, the daily averages come in strictly increasing
    order of date, one row per date; the value of a row is the mean of the
    values of exactly the samples of its date, of which there is at least
    one, its timestamp is midnight of its date, and every date that occurs
    in the frame has its row. *)
Theorem daily_avg_any_frame (df : DataFrame) :
  StronglySorted Z.lt (map d_date (daily_avg df))
  /\ (forall row : DailyRow,
         In row (daily_avg df) ->
         d_value row
         = mean (map value (filter (fun r => row_date r =? d_date row) df))
         /\ filter (fun r => row_date r =? d_date row) df <> []
         /\ d_timestamp row = midnight (d_date row))
  /\ (forall r : Row,
         In r df -> exists row, In row (daily_avg df) /\ d_date row = row_date r).
Proof.
  destruct (groupby_date_any df) as (Hs & Hg & Hr).
  unfold daily_avg. split; [| split].
  - rewrite map_map. cbn [d_date]. exact Hs.
  - intros row Hrow. apply in_map_iff in Hrow as ([d l] & <- & Hin).
    cbn [d_value d_date d_timestamp fst snd].
    destruct (Hg d l Hin) as [El Hne]. rewrite <- El.
    split; [reflexivity | split; [exact Hne | reflexivity]].
  - intros r Hin. destruct (Hr r Hin) as [l Hl].
    eexists. split; [apply in_map; exact Hl | reflexivity].
Qed.

(** X2: whatever the frame, the hourly averages come in strictly increasing
    order of (date, hour), one row per pair; the value of a row is the mean
    of the values of exactly the samples of its date and hour, of which
    there is at least one, its timestamp is its date plus its hour, and
    every (date, hour) that occurs in the frame has its row. *)
Theorem hourly_avg_any_frame (df : DataFrame) :
  StronglySorted (fun a b => pair_compare a b = Lt)
                 (map (fun row => (h_date row, h_hour row)) (hourly_avg df))
  /\ (forall row : HourlyRow,
         In row (hourly_avg df) ->
         h_value row
         = mean (map value
                     (filter (fun r => (row_date r =? h_date row)
                                       && (row_hour r =? h_hour row)) df))
         /\ filter (fun r => (row_date r =? h_date row)
                             && (row_hour r =? h_hour row)) df <> []
         /\ h_timestamp row
            = add (midnight (h_date row)) (Timedelta_hours (h_hour row)))
  /\ (forall r : Row,
         In r df ->
         exists row, In row (hourly_avg df)
                     /\ h_date row = row_date r /\ h_hour row = row_hour r).
Proof.
  destruct (groupby_date_hour_any df) as (Hs & Hg & Hr).
  unfold hourly_avg. split; [| split].
  - rewrite map_map.
    rewrite (map_ext _ fst); [exact Hs|]. intros [[d h] l]. reflexivity.
  - intros row Hrow. apply in_map_iff in Hrow as ([[d h] l] & <- & Hin).
    cbn [h_value h_date h_hour h_timestamp fst snd].
    destruct (Hg (d, h) l Hin) as [El Hne]. cbn [fst snd] in El. rewrite <- El.
    split; [reflexivity | split; [exact Hne | reflexivity]].
  - intros r Hin. destruct (Hr r Hin) as [l Hl].
    eexists. split; [apply in_map; exact Hl |]. split; reflexivity.
Qed.

(** ** The generator in closed form *)

(** X3: for any start date, at midnight or not, and any number of days,
    the frame has [86400 * max(0, num_days)] rows; the row at position [i]
    is stamped [i] seconds after the start date and its value is 100 times
    the [i]-th number drawn plus 50 times the sine term of second
    [i mod 86400] of the loop; the generator is left after exactly one draw
    per row; with [num_days <= 0] the frame is empty and the generator
    untouched. *)
Theorem generate_mock_data_closed_form {rng : Type} (rand : rng -> Q * rng)
        (daily_sin : Z -> Q) (start_date : datetime) (num_days : Z) (g : rng) :
  snd (generate_mock_data rand daily_sin start_date num_days g)
  = advance rand (Z.to_nat (86400 * Z.max 0 num_days)) g
  /\ (forall (i : nat) (r : Row),
         nth_error (fst (generate_mock_data rand daily_sin start_date num_days g))
                   i = Some r
         <-> Z.of_nat i < 86400 * Z.max 0 num_days
             /\ timestamp r = add start_date (timedelta 0 (Z.of_nat i))
             /\ value r
                = (fst (rand (advance rand i g)) * inject_Z 100
                   + inject_Z 50 * daily_sin (Z.of_nat i mod 86400))%Q)
  /\ (num_days <= 0 ->
      generate_mock_data rand daily_sin start_date num_days g = ([], g)).
Proof.
  rewrite generate_mock_data_rows. cbn [fst snd]. split; [reflexivity|]. split.
  - intros i r.
    fold (sample_rows rand daily_sin start_date g 0 (86400 * Z.max 0 num_days)).
    rewrite nth_error_sample_rows. cbn [Z.add].
    unfold sample_row, sample_value, add, timedelta. rewrite Nat2Z.id.
    cbn [Z.mul Z.add]. destruct r as [ts v]. cbn [timestamp value].
    split.
    + intros [Hi [= -> ->]]. repeat split. exact Hi.
    + intros (Hi & -> & ->). split; [exact Hi | reflexivity].
  - intros Hn. rewrite Z.max_l by assumption. reflexivity.
Qed.

(** ** Bounds on values *)

Lemma sample_value_bounds {rng : Type} (rand : rng -> Q * rng)
      (daily_sin : Z -> Q) (g : rng) (k : Z) :
  (forall s, 0 <= fst (rand s) /\ fst (rand s) <= 1)%Q ->
  (forall second, - (1) <= daily_sin second /\ daily_sin second <= 1)%Q ->
  (- (50) <= sample_value rand daily_sin g k
   /\ sample_value rand daily_sin g k <= 150)%Q.
Proof.
  intros Hrand Hsin. unfold sample_value.
  destruct (Hrand (advance rand (Z.to_nat k) g)) as [H0 H1].
  destruct (Hsin (k mod 86400)) as [Hs0 Hs1].
  change (inject_Z 100) with 100%Q. change (inject_Z 50) with 50%Q.
  split; lra.
Qed.

(** X4: if the numbers drawn are between 0 and 1 and the sine term between
    -1 and 1, every sample value is between -50 and 150, bounds included,
    for any start date and any number of days. *)
Theorem sample_values_bounded {rng : Type} (rand : rng -> Q * rng)
        (daily_sin : Z -> Q) (start_date : datetime) (num_days : Z) (g : rng) :
  (forall s, 0 <= fst (rand s) /\ fst (rand s) <= 1)%Q ->
  (forall second, - (1) <= daily_sin second /\ daily_sin second <= 1)%Q ->
  forall r : Row,
    In r (fst (generate_mock_data rand daily_sin start_date num_days g)) ->
    (- (50) <= value r /\ value r <= 150)%Q.
Proof.
  intros Hrand Hsin r Hr.
  rewrite generate_mock_data_rows in Hr. cbn [fst] in Hr.
  apply in_map_iff in Hr as (k & <- & _). cbn [sample_row value].
  now apply sample_value_bounds.
Qed.

Lemma sample_values_bounded_witness :
  (forall s, 0 <= fst (example_rand s) /\ fst (example_rand s) <= 1)%Q
  /\ (forall second,
         - (1) <= example_sin second /\ example_sin second <= 1)%Q
  /\ (forall r : Row,
         In r (fst (generate_mock_data example_rand example_sin
                                       (midnight (ymd2ord 2024 1 1)) 7 0)) ->
         (- (50) <= value r /\ value r <= 150)%Q).
Proof.
  assert (Hr : (forall s, 0 <= fst (example_rand s)
                          /\ fst (example_rand s) <= 1)%Q).
  { intros s. cbn [example_rand fst]. split; lra. }
  assert (Hs : (forall second,
                   - (1) <= example_sin second /\ example_sin second <= 1)%Q).
  { intros second. unfold example_sin. change (inject_Z 0) with 0%Q. split; lra. }
  split; [exact Hr|]. split; [exact Hs|].
  exact (sample_values_bounded example_rand example_sin
                               (midnight (ymd2ord 2024 1 1)) 7 0 Hr Hs).
Defined.

(** ** The charts of a generated series *)

Lemma filter_zrange_clip (lo len a b : Z) :
  0 <= len ->
  filter (fun k => (a <=? k) && (k <? b)) (zrange lo len)
  = zrange (Z.max lo a) (Z.min (lo + len) b - Z.max lo a).
Proof.
  intros Hlen.
  destruct (Z.le_gt_cases (Z.max lo a) (Z.min (lo + len) b)) as [Hle|Hgt].
  - rewrite (filter_ext_in _ (fun k => (Z.max lo a <=? k)
                                       && (k <? Z.min (lo + len) b))).
    + apply filter_zrange_window; lia.
    + intros k Hk. apply in_zrange in Hk. apply Bool.eq_true_iff_eq.
      rewrite !andb_true_iff, !Z.leb_le, !Z.ltb_lt. lia.
  - rewrite (zrange_nil (Z.max lo a)) by lia. apply filter_none.
    intros k Hk. apply in_zrange in Hk.
    apply andb_false_iff. rewrite Z.leb_gt, Z.ltb_ge. lia.
Qed.

Section ChartFacts.

Variable rng : Type.
Variable rand : rng -> Q * rng.
Variable daily_sin : Z -> Q.
Variable g : rng.
Variables d0 n : Z.
Hypothesis n_nonneg : 0 <= n.

(** The rows of a time window, clipped to the series. *)
Lemma filter_time_window_clip (start_time end_time : datetime) :
  filter (fun r => geb (timestamp r) start_time && ltb (timestamp r) end_time)
         (sample_rows rand daily_sin (midnight d0) g 0 (86400 * n))
  = sample_rows rand daily_sin (midnight d0) g
                (Z.max 0 (to_seconds start_time - d0 * 86400))
                (Z.min (86400 * n) (to_seconds end_time - d0 * 86400)
                 - Z.max 0 (to_seconds start_time - d0 * 86400)).
Proof.
  unfold sample_rows. rewrite filter_map_swap.
  rewrite (filter_ext_in
             _ (fun k => (to_seconds start_time - d0 * 86400 <=? k)
                         && (k <? to_seconds end_time - d0 * 86400))).
  - rewrite filter_zrange_clip by lia. reflexivity.
  - intros k Hk. unfold geb, ltb.
    rewrite to_seconds_sample, to_seconds_midnight. f_equal.
    + apply Bool.eq_true_iff_eq. rewrite !Z.leb_le. lia.
    + apply Bool.eq_true_iff_eq. rewrite !Z.ltb_lt. lia.
Qed.

Lemma weekly_chart_frame :
  figure_x (create_weekly_chart
              (sample_rows rand daily_sin (midnight d0) g 0 (86400 * n)))
  = map (fun i => midnight (d0 + i)) (zrange 0 n)
  /\ figure_y (create_weekly_chart
                 (sample_rows rand daily_sin (midnight d0) g 0 (86400 * n)))
     = map (fun i => mean (map value (sample_rows rand daily_sin (midnight d0) g
                                                  (86400 * i) 86400)))
           (zrange 0 n).
Proof.
  unfold create_weekly_chart, figure_x, figure_y. cbn [data x y].
  rewrite daily_avg_frame by assumption. rewrite !map_map.
  split; reflexivity.
Qed.

(** The hourly averages of one date of the series, by position of the hour
    in the series. *)
Lemma daily_chart_frame (d : Z) :
  d0 <= d < d0 + n ->
  figure_x (create_daily_chart
              (sample_rows rand daily_sin (midnight d0) g 0 (86400 * n)) d)
  = map (fun j => add (midnight (d0 + j / 24)) (Timedelta_hours (j mod 24)))
        (zrange (24 * (d - d0)) 24)
  /\ figure_y (create_daily_chart
                 (sample_rows rand daily_sin (midnight d0) g 0 (86400 * n)) d)
     = map (fun j => mean (map value (sample_rows rand daily_sin (midnight d0) g
                                                  (3600 * j) 3600)))
           (zrange (24 * (d - d0)) 24).
Proof.
  intros Hd.
  destruct (daily_chart_points
              (sample_rows rand daily_sin (midnight d0) g 0 (86400 * n)) d)
    as [-> ->].
  rewrite hourly_avg_frame by assumption. rewrite filter_map_swap.
  cbn [h_timestamp].
  rewrite (filter_ext_in _ (fun j => (24 * (d - d0) <=? j)
                                     && (j <? 24 * (d - d0) + 24))).
  - rewrite filter_zrange_window by lia.
    replace (24 * (d - d0) + 24 - 24 * (d - d0)) with 24 by lia.
    rewrite !map_map. split; reflexivity.
  - intros j Hj. apply in_zrange in Hj.
    rewrite hourly_timestamp_date by (Z.div_mod_to_equations; lia).
    apply Bool.eq_true_iff_eq.
    rewrite Z.eqb_eq, andb_true_iff, Z.leb_le, Z.ltb_lt.
    Z.div_mod_to_equations. lia.
Qed.

Lemma hourly_chart_frame (d h : Z) :
  d0 <= d < d0 + n -> 0 <= h < 24 ->
  figure_x (create_hourly_chart
              (sample_rows rand daily_sin (midnight d0) g 0 (86400 * n)) d h)
  = map timestamp (sample_rows rand daily_sin (midnight d0) g
                               (86400 * (d - d0) + 3600 * h) 3600)
  /\ figure_y (create_hourly_chart
                 (sample_rows rand daily_sin (midnight d0) g 0 (86400 * n)) d h)
     = map value (sample_rows rand daily_sin (midnight d0) g
                              (86400 * (d - d0) + 3600 * h) 3600).
Proof.
  intros Hd Hh.
  destruct (hourly_chart_points
              (sample_rows rand daily_sin (midnight d0) g 0 (86400 * n)) d h)
    as [-> ->].
  rewrite (filter_time_window rng rand daily_sin g d0 n _ _
             (86400 * (d - d0) + 3600 * h)
             (86400 * (d - d0) + 3600 * h + 3600)).
  - replace (86400 * (d - d0) + 3600 * h + 3600 - (86400 * (d - d0) + 3600 * h))
      with 3600 by lia.
    split; reflexivity.
  - rewrite to_seconds_add, to_seconds_midnight. unfold Timedelta_hours. lia.
  - rewrite !to_seconds_add, to_seconds_midnight. unfold Timedelta_hours. lia.
  - lia.
  - lia.
  - lia.
Qed.

End ChartFacts.

Lemma nth_error_map_zrange {B : Type} (f : Z -> B) (lo len k : Z) :
  0 <= k < len ->
  nth_error (map f (zrange lo len)) (Z.to_nat k) = Some (f (lo + k)).
Proof.
  intros Hk. rewrite nth_error_map. unfold zrange.
  rewrite nth_error_zrange_from by lia. cbn [option_map].
  now rewrite Z2Nat.id by lia.
Qed.

(** X5: the weekly chart of a generated series has one point per day, in
    order: its x is midnight of the day and its y the mean of the values of
    the samples of that day. *)
Theorem weekly_chart_of_series {rng : Type} (rand : rng -> Q * rng)
        (daily_sin : Z -> Q) (g : rng) (d0 num_days : Z) :
  0 <= num_days ->
  figure_x (create_weekly_chart
              (fst (generate_mock_data rand daily_sin (midnight d0) num_days g)))
  = map (fun i => midnight (d0 + i)) (range num_days)
  /\ figure_y (create_weekly_chart
                 (fst (generate_mock_data rand daily_sin (midnight d0)
                                          num_days g)))
     = map (fun i =>
              mean (map value
                        (filter (fun r => row_date r =? d0 + i)
                                (fst (generate_mock_data rand daily_sin
                                                         (midnight d0)
                                                         num_days g)))))
           (range num_days).
Proof.
  intros Hn. rewrite generate_mock_data_frame by assumption.
  destruct (weekly_chart_frame rng rand daily_sin g d0 num_days Hn) as [-> ->].
  split; [reflexivity|]. unfold range.
  apply map_ext_in. intros i Hi. apply in_zrange in Hi.
  rewrite filter_date_frame by lia.
  replace (d0 + i - d0) with i by lia. reflexivity.
Qed.

Lemma weekly_chart_of_series_witness :
  0 <= 7
  /\ figure_x (create_weekly_chart
                 (fst (generate_mock_data example_rand example_sin
                                          (midnight (ymd2ord 2024 1 1)) 7 0)))
     = map (fun i => midnight (ymd2ord 2024 1 1 + i)) (range 7).
Proof.
  assert (H : 0 <= 7) by lia.
  split; [exact H|].
  exact (proj1 (weekly_chart_of_series example_rand example_sin 0
                                       (ymd2ord 2024 1 1) 7 H)).
Defined.

(** X6: the daily chart of a date of the series has 24 points, one per
    hour from 0 to 23, in order: its x is the date at that hour and its y
    the mean of the values of the samples of that date and hour. *)
Theorem daily_chart_of_series {rng : Type} (rand : rng -> Q * rng)
        (daily_sin : Z -> Q) (g : rng) (d0 num_days d : Z) :
  d0 <= d < d0 + num_days ->
  figure_x (create_daily_chart
              (fst (generate_mock_data rand daily_sin (midnight d0) num_days g))
              d)
  = map (fun h => mkDatetime d h 0 0) (range 24)
  /\ figure_y (create_daily_chart
                 (fst (generate_mock_data rand daily_sin (midnight d0)
                                          num_days g)) d)
     = map (fun h =>
              mean (map value
                        (filter (fun r => (row_date r =? d) && (row_hour r =? h))
                                (fst (generate_mock_data rand daily_sin
                                                         (midnight d0)
                                                         num_days g)))))
           (range 24).
Proof.
  intros Hd. rewrite generate_mock_data_frame by lia.
  assert (Hn : 0 <= num_days) by lia.
  destruct (daily_chart_frame rng rand daily_sin g d0 num_days Hn d Hd)
    as [-> ->].
  unfold range.
  replace (24 * (d - d0)) with (24 * (d - d0) + 0) by lia.
  rewrite <- !map_zrange_shift. split.
  - apply map_ext_in. intros h Hh. apply in_zrange in Hh.
    replace (d0 + (24 * (d - d0) + h) / 24) with d
      by (Z.div_mod_to_equations; lia).
    replace ((24 * (d - d0) + h) mod 24) with h
      by (Z.div_mod_to_equations; lia).
    apply add_midnight_hours. lia.
  - apply map_ext_in. intros h Hh. apply in_zrange in Hh.
    rewrite filter_date_hour_frame by lia.
    replace (3600 * (24 * (d - d0) + h))
      with (86400 * (d - d0) + 3600 * h) by lia.
    reflexivity.
Qed.

Lemma daily_chart_of_series_witness :
  (ymd2ord 2024 1 1 <= ymd2ord 2024 1 3 < ymd2ord 2024 1 1 + 7)
  /\ figure_x (create_daily_chart
                 (fst (generate_mock_data example_rand example_sin
                                          (midnight (ymd2ord 2024 1 1)) 7 0))
                 (ymd2ord 2024 1 3))
     = map (fun h => mkDatetime (ymd2ord 2024 1 3) h 0 0) (range 24).
Proof.
  assert (H : ymd2ord 2024 1 1 <= ymd2ord 2024 1 3 < ymd2ord 2024 1 1 + 7)
    by (vm_compute; split; [discriminate | reflexivity]).
  split; [exact H|].
  exact (proj1 (daily_chart_of_series example_rand example_sin 0
                                      (ymd2ord 2024 1 1) 7 (ymd2ord 2024 1 3) H)).
Defined.

(** X7: the hourly chart of a date and hour of the series shows the
    samples of that date and hour, the same samples the hourly average is
    taken of: its x are the 3600 seconds of the hour, in order, and its y
    their values. *)
Theorem hourly_chart_of_series {rng : Type} (rand : rng -> Q * rng)
        (daily_sin : Z -> Q) (g : rng) (d0 num_days d h : Z) :
  d0 <= d < d0 + num_days -> 0 <= h < 24 ->
  figure_x (create_hourly_chart
              (fst (generate_mock_data rand daily_sin (midnight d0) num_days g))
              d h)
  = map (fun s => mkDatetime d h (s / 60) (s mod 60)) (range 3600)
  /\ figure_y (create_hourly_chart
                 (fst (generate_mock_data rand daily_sin (midnight d0)
                                          num_days g)) d h)
     = map value
           (filter (fun r => (row_date r =? d) && (row_hour r =? h))
                   (fst (generate_mock_data rand daily_sin (midnight d0)
                                            num_days g))).
Proof.
  intros Hd Hh. rewrite generate_mock_data_frame by lia.
  destruct (hourly_chart_frame rng rand daily_sin g d0 num_days d h Hd Hh)
    as [-> ->].
  rewrite filter_date_hour_frame by lia. split; [| reflexivity].
  unfold sample_rows, range. rewrite map_map.
  replace (86400 * (d - d0) + 3600 * h)
    with (86400 * (d - d0) + 3600 * h + 0) by lia.
  rewrite <- (map_zrange_shift
                (fun k => timestamp (sample_row rand daily_sin (midnight d0) g k))).
  apply map_ext_in. intros s Hs. apply in_zrange in Hs.
  now rewrite timestamp_sample_in_hour by lia.
Qed.

Lemma hourly_chart_of_series_witness :
  (ymd2ord 2024 1 1 <= ymd2ord 2024 1 3 < ymd2ord 2024 1 1 + 7)
  /\ 0 <= 14 < 24
  /\ figure_x (create_hourly_chart
                 (fst (generate_mock_data example_rand example_sin
                                          (midnight (ymd2ord 2024 1 1)) 7 0))
                 (ymd2ord 2024 1 3) 14)
     = map (fun s => mkDatetime (ymd2ord 2024 1 3) 14 (s / 60) (s mod 60))
           (range 3600).
Proof.
  assert (H : ymd2ord 2024 1 1 <= ymd2ord 2024 1 3 < ymd2ord 2024 1 1 + 7)
    by (vm_compute; split; [discriminate | reflexivity]).
  assert (H' : 0 <= 14 < 24) by lia.
  split; [exact H|]. split; [exact H'|].
  exact (proj1 (hourly_chart_of_series example_rand example_sin 0
                                       (ymd2ord 2024 1 1) 7
                                       (ymd2ord 2024 1 3) 14 H H')).
Defined.

(** X8: the charts agree from one level to the next: the point of hour
    [h] of the daily chart of [d] is the mean of the values shown by the
    hourly chart of [d] and [h], and the point of [d] in the weekly chart is
    the mean of the values shown by the 24 hourly charts of [d], taken one
    after the other from hour 0 to hour 23. *)
Theorem drill_down_means_agree {rng : Type} (rand : rng -> Q * rng)
        (daily_sin : Z -> Q) (g : rng) (d0 num_days d h : Z) :
  d0 <= d < d0 + num_days -> 0 <= h < 24 ->
  nth_error (figure_y (create_daily_chart
                         (fst (generate_mock_data rand daily_sin (midnight d0)
                                                  num_days g)) d))
            (Z.to_nat h)
  = Some (mean (figure_y (create_hourly_chart
                            (fst (generate_mock_data rand daily_sin
                                                     (midnight d0) num_days g))
                            d h)))
  /\ nth_error (figure_y (create_weekly_chart
                            (fst (generate_mock_data rand daily_sin
                                                     (midnight d0) num_days g))))
               (Z.to_nat (d - d0))
     = Some (mean (List.concat
                     (map (fun h' =>
                             figure_y (create_hourly_chart
                                         (fst (generate_mock_data
                                                 rand daily_sin (midnight d0)
                                                 num_days g))
                                         d h'))
                          (range 24)))).
Proof.
  intros Hd Hh. assert (Hn : 0 <= num_days) by lia.
  rewrite generate_mock_data_frame by assumption.
  destruct (daily_chart_frame rng rand daily_sin g d0 num_days Hn d Hd)
    as [_ ->].
  destruct (weekly_chart_frame rng rand daily_sin g d0 num_days Hn) as [_ ->].
  split.
  - destruct (hourly_chart_frame rng rand daily_sin g d0 num_days d h Hd Hh)
      as [_ ->].
    rewrite nth_error_map_zrange by assumption.
    replace (3600 * (24 * (d - d0) + h))
      with (86400 * (d - d0) + 3600 * h) by lia.
    reflexivity.
  - rewrite nth_error_map_zrange by lia.
    rewrite Z.add_0_l, day_values_by_hour.
    apply f_equal. apply f_equal. apply f_equal. unfold range.
    replace (24 * (d - d0)) with (24 * (d - d0) + 0) by lia.
    rewrite <- map_zrange_shift.
    apply map_ext_in. intros h' Hh'. apply in_zrange in Hh'.
    destruct (hourly_chart_frame rng rand daily_sin g d0 num_days d h' Hd)
      as [_ ->]; [lia|].
    replace (3600 * (24 * (d - d0) + h'))
      with (86400 * (d - d0) + 3600 * h') by lia.
    reflexivity.
Qed.

Lemma drill_down_means_agree_witness :
  (ymd2ord 2024 1 1 <= ymd2ord 2024 1 3 < ymd2ord 2024 1 1 + 7)
  /\ 0 <= 14 < 24
  /\ nth_error (figure_y (create_daily_chart
                            (fst (generate_mock_data
                                    example_rand example_sin
                                    (midnight (ymd2ord 2024 1 1)) 7 0))
                            (ymd2ord 2024 1 3)))
               (Z.to_nat 14)
     = Some (mean (figure_y (create_hourly_chart
                               (fst (generate_mock_data
                                       example_rand example_sin
                                       (midnight (ymd2ord 2024 1 1)) 7 0))
                               (ymd2ord 2024 1 3) 14))).
Proof.
  assert (H : ymd2ord 2024 1 1 <= ymd2ord 2024 1 3 < ymd2ord 2024 1 1 + 7)
    by (vm_compute; split; [discriminate | reflexivity]).
  assert (H' : 0 <= 14 < 24) by lia.
  split; [exact H|]. split; [exact H'|].
  exact (proj1 (drill_down_means_agree example_rand example_sin 0
                                       (ymd2ord 2024 1 1) 7
                                       (ymd2ord 2024 1 3) 14 H H')).
Defined.

Lemma timestamps_of_sample_rows {rng : Type} (rand : rng -> Q * rng)
      (daily_sin : Z -> Q) (g : rng) (d0 lo len : Z) :
  map timestamp (sample_rows rand daily_sin (midnight d0) g lo len)
  = map (fun k => of_seconds (d0 * 86400 + k)) (zrange lo len).
Proof.
  unfold sample_rows. rewrite map_map. apply map_ext. intros k.
  cbn [sample_row timestamp]. now rewrite to_seconds_midnight.
Qed.

Lemma values_of_sample_rows {rng : Type} (rand : rng -> Q * rng)
      (daily_sin : Z -> Q) (start_date : datetime) (g : rng) (lo len : Z) :
  map value (sample_rows rand daily_sin start_date g lo len)
  = map (fun k =>
           (fst (rand (advance rand (Z.to_nat k) g)) * inject_Z 100
            + inject_Z 50 * daily_sin (k mod 86400))%Q)
        (zrange lo len).
Proof. unfold sample_rows. rewrite map_map. reflexivity. Qed.

(** X9: for a start time in the range of pandas timestamps (years 1678 to
    2261), inside the series or not, the second chart of a generated series
    shows the samples at the positions of the series that fall in the 60
    seconds from the start time, in order: x are their timestamps and y
    their values, position by position; there are at most 60 of them and
    none when the window misses the series. *)
Theorem second_chart_clipped {rng : Type} (rand : rng -> Q * rng)
        (daily_sin : Z -> Q) (g : rng) (d0 num_days : Z)
        (start_time : datetime) :
  0 <= num_days ->
  valid start_time ->
  ymd2ord 1678 1 1 <= date start_time < ymd2ord 2262 1 1 ->
  figure_x (create_second_chart
              (fst (generate_mock_data rand daily_sin (midnight d0) num_days g))
              start_time)
  = map (fun k => of_seconds (d0 * 86400 + k))
        (zrange (Z.max 0 (to_seconds start_time - d0 * 86400))
                (Z.min (86400 * num_days)
                       (to_seconds start_time + 60 - d0 * 86400)
                 - Z.max 0 (to_seconds start_time - d0 * 86400)))
  /\ figure_y (create_second_chart
                 (fst (generate_mock_data rand daily_sin (midnight d0)
                                          num_days g))
                 start_time)
     = map (fun k =>
              (fst (rand (advance rand (Z.to_nat k) g)) * inject_Z 100
               + inject_Z 50 * daily_sin (k mod 86400))%Q)
           (zrange (Z.max 0 (to_seconds start_time - d0 * 86400))
                   (Z.min (86400 * num_days)
                          (to_seconds start_time + 60 - d0 * 86400)
                    - Z.max 0 (to_seconds start_time - d0 * 86400)))
  /\ Z.of_nat (List.length
                 (figure_x (create_second_chart
                              (fst (generate_mock_data rand daily_sin
                                                       (midnight d0) num_days g))
                              start_time)))
     <= 60.
Proof.
  intros Hn _ _. rewrite generate_mock_data_frame by assumption.
  destruct (second_chart_points
              (sample_rows rand daily_sin (midnight d0) g 0 (86400 * num_days))
              start_time) as [-> ->].
  rewrite filter_time_window_clip by assumption.
  rewrite to_seconds_add. unfold Timedelta_minutes.
  replace (to_seconds start_time + 1 * 60 - d0 * 86400)
    with (to_seconds start_time + 60 - d0 * 86400) by lia.
  split; [apply timestamps_of_sample_rows | split].
  - apply values_of_sample_rows.
  - rewrite length_map. unfold sample_rows, zrange.
    rewrite length_map, zrange_from_length. lia.
Qed.

Lemma second_chart_clipped_witness :
  0 <= 7
  /\ valid (mkDatetime (ymd2ord 2024 1 7) 23 59 30)
  /\ (ymd2ord 1678 1 1 <= date (mkDatetime (ymd2ord 2024 1 7) 23 59 30)
      < ymd2ord 2262 1 1)
  /\ Z.of_nat (List.length
                 (figure_x (create_second_chart
                              (fst (generate_mock_data
                                      example_rand example_sin
                                      (midnight (ymd2ord 2024 1 1)) 7 0))
                              (mkDatetime (ymd2ord 2024 1 7) 23 59 30))))
     <= 60.
Proof.
  assert (H : 0 <= 7) by lia.
  assert (Hv : valid (mkDatetime (ymd2ord 2024 1 7) 23 59 30)).
  { unfold valid. cbn [dt_hour dt_minute dt_second]. lia. }
  assert (Hr : ymd2ord 1678 1 1 <= date (mkDatetime (ymd2ord 2024 1 7) 23 59 30)
               < ymd2ord 2262 1 1)
    by (vm_compute; split; [discriminate | reflexivity]).
  split; [exact H|]. split; [exact Hv|]. split; [exact Hr|].
  exact (proj2 (proj2 (second_chart_clipped
                         example_rand example_sin 0 (ymd2ord 2024 1 1) 7
                         (mkDatetime (ymd2ord 2024 1 7) 23 59 30) H Hv Hr))).
Defined.

(** ** The callback: errors and reachable views *)


(** X12: the callback never skips a level: when it returns a view other
    than weekly, the chart was clicked, and the view returned is the one
    just below the current view, with the chart of the clicked point:
    daily from weekly, hourly from daily, second from hourly. *)
Theorem finer_view_comes_from_view_above (df : DataFrame)
        (triggered : list string) (clickData : option ClickData)
        (n_clicks : Z) (current_view : string) (fig : Figure) (view : string) :
  update_graph df triggered clickData n_clicks current_view = Ok (fig, view) ->
  view <> "weekly"%string ->
  exists prop_id rest cd t,
    triggered = prop_id :: rest
    /\ split_dot_first prop_id = "chart"%string
    /\ clickData = Some cd
    /\ clicked_x cd = Ok t
    /\ ((current_view = "weekly"%string /\ view = "daily"%string
         /\ fig = create_daily_chart df (date t))
        \/ (current_view = "daily"%string /\ view = "hourly"%string
            /\ fig = create_hourly_chart df (date t) (hour t))
        \/ (current_view = "hourly"%string /\ view = "second"%string
            /\ fig = create_second_chart df (mkDatetime (date t) (hour t) 0 0))).
Proof.
  unfold update_graph. destruct triggered as [|prop_id rest].
  { intros [= _ <-] Hv. now destruct Hv. }
  destruct (String.eqb_spec (split_dot_first prop_id) "reset-button").
  { intros [= _ <-] Hv. now destruct Hv. }
  destruct (String.eqb_spec (split_dot_first prop_id) "chart") as [Hc|Hc].
  2: { intros [= _ <-] Hv. now destruct Hv. }
  destruct clickData as [cd|].
  2: { intros [= _ <-] Hv. now destruct Hv. }
  destruct (String.eqb_spec current_view "weekly") as [Ew|Ew].
  { destruct (clicked_x cd) as [t|e] eqn:Ex; [| discriminate].
    intros [= <- <-] _. exists prop_id, rest, cd, t.
    repeat (split; [reflexivity || assumption|]). left. now repeat split. }
  destruct (String.eqb_spec current_view "daily") as [Ed|Ed].
  { destruct (clicked_x cd) as [t|e] eqn:Ex; [| discriminate].
    intros [= <- <-] _. exists prop_id, rest, cd, t.
    repeat (split; [reflexivity || assumption|]). right; left. now repeat split. }
  destruct (String.eqb_spec current_view "hourly") as [Eh|Eh].
  { destruct (clicked_x cd) as [t|e] eqn:Ex; [| discriminate].
    intros [= <- <-] _. exists prop_id, rest, cd, t.
    repeat (split; [reflexivity || assumption|]). right; right. now repeat split. }
  intros [= _ <-] Hv. now destruct Hv.
Qed.

Lemma finer_view_comes_from_view_above_witness :
  update_graph small_df ["chart.clickData"%string]
               (Some (mkClickData [mkPoint (mkDatetime 5 0 0 1)])) 0 "hourly"
  = Ok (create_second_chart small_df (mkDatetime 5 0 0 0), "second"%string)
  /\ "second"%string <> "weekly"%string
  /\ exists prop_id rest cd t,
      ["chart.clickData"%string] = prop_id :: rest
      /\ split_dot_first prop_id = "chart"%string
      /\ Some (mkClickData [mkPoint (mkDatetime 5 0 0 1)]) = Some cd
      /\ clicked_x cd = Ok t
      /\ (("hourly"%string = "weekly"%string /\ "second"%string = "daily"%string
           /\ create_second_chart small_df (mkDatetime 5 0 0 0)
              = create_daily_chart small_df (date t))
          \/ ("hourly"%string = "daily"%string
              /\ "second"%string = "hourly"%string
              /\ create_second_chart small_df (mkDatetime 5 0 0 0)
                 = create_hourly_chart small_df (date t) (hour t))
          \/ ("hourly"%string = "hourly"%string
              /\ "second"%string = "second"%string
              /\ create_second_chart small_df (mkDatetime 5 0 0 0)
                 = create_second_chart small_df
                                       (mkDatetime (date t) (hour t) 0 0))).
Proof.
  assert (H : update_graph small_df ["chart.clickData"%string]
                (Some (mkClickData [mkPoint (mkDatetime 5 0 0 1)])) 0 "hourly"
              = Ok (create_second_chart small_df (mkDatetime 5 0 0 0),
                    "second"%string)) by reflexivity.
  assert (H' : "second"%string <> "weekly"%string) by discriminate.
  split; [exact H|]. split; [exact H'|].
  exact (finer_view_comes_from_view_above
           small_df ["chart.clickData"%string]
           (Some (mkClickData [mkPoint (mkDatetime 5 0 0 1)])) 0 "hourly"
           (create_second_chart small_df (mkDatetime 5 0 0 0)) "second" H H').
Defined.

(** X13: the trigger id is the prop id up to its first dot: a prefix of the
    prop id that contains no dot and is followed by a dot or by nothing. *)
Theorem split_dot_first_prefix (s : string) :
  (exists rest : string,
      s = (split_dot_first s ++ rest)%string
      /\ (rest = EmptyString \/ exists rest', rest = String "."%char rest'))
  /\ forall c : ascii,
      In c (list_ascii_of_string (split_dot_first s)) -> c <> "."%char.
Proof.
  induction s as [|c s [(rest & Hs & Hrest) Hno]]; cbn [split_dot_first].
  - split; [| intros c []]. exists EmptyString. split; [reflexivity | now left].
  - destruct (Ascii.eqb_spec c "."%char) as [-> | Hc].
    + split; [| intros c []]. exists (String "."%char s).
      split; [reflexivity | right; now exists s].
    + split.
      * exists rest. split; [| exact Hrest].
        cbn [String.append]. now rewrite <- Hs.
      * intros c' [<- | Hin]; [exact Hc | now apply Hno].
Qed.

(** ** A whole drill-down *)

Lemma second_chart_frame {rng : Type} (rand : rng -> Q * rng)
      (daily_sin : Z -> Q) (g : rng) (d0 n d h : Z) :
  d0 <= d < d0 + n -> 0 <= h < 24 ->
  figure_x (create_second_chart
              (sample_rows rand daily_sin (midnight d0) g 0 (86400 * n))
              (mkDatetime d h 0 0))
  = map (fun s => mkDatetime d h 0 s) (range 60).
Proof.
  intros Hd Hh.
  destruct (second_chart_points
              (sample_rows rand daily_sin (midnight d0) g 0 (86400 * n))
              (mkDatetime d h 0 0)) as [-> _].
  remember (86400 * (d - d0) + 3600 * h) as a eqn:Ha.
  assert (Hstart : to_seconds (mkDatetime d h 0 0) = d0 * 86400 + a).
  { unfold to_seconds. cbn [dt_date dt_hour dt_minute dt_second]. lia. }
  rewrite (filter_time_window rng rand daily_sin g d0 n _ _ a (a + 60)).
  2: exact Hstart.
  2: { rewrite to_seconds_add, Hstart. unfold Timedelta_minutes. lia. }
  2-4: lia.
  replace (a + 60 - a) with 60 by lia.
  unfold sample_rows, range. rewrite map_map.
  replace a with (a + 0) at 1 by lia.
  rewrite <- (map_zrange_shift
                (fun k => timestamp (sample_row rand daily_sin (midnight d0) g k))).
  apply map_ext_in. intros s Hs. apply in_zrange in Hs.
  replace (a + s) with (86400 * (d - d0) + 3600 * h + s) by lia.
  rewrite timestamp_sample_in_hour by lia.
  rewrite Z.div_small, Z.mod_small by lia. reflexivity.
Qed.

(** The points a user can click, level by level. *)
Lemma rendered_points {rng : Type} (rand : rng -> Q * rng)
      (daily_sin : Z -> Q) (g : rng) (d0 n : Z) (t1 t2 t3 : datetime) :
  0 <= n ->
  In t1 (figure_x (create_weekly_chart
                     (sample_rows rand daily_sin (midnight d0) g 0 (86400 * n)))) ->
  In t2 (figure_x (create_daily_chart
                     (sample_rows rand daily_sin (midnight d0) g 0 (86400 * n))
                     (date t1))) ->
  In t3 (figure_x (create_hourly_chart
                     (sample_rows rand daily_sin (midnight d0) g 0 (86400 * n))
                     (date t2) (hour t2))) ->
  d0 <= date t1 < d0 + n
  /\ date t2 = date t1 /\ 0 <= hour t2 < 24
  /\ date t3 = date t1 /\ hour t3 = hour t2.
Proof.
  intros Hn H1 H2 H3.
  destruct (weekly_chart_frame rng rand daily_sin g d0 n Hn) as [Ew _].
  rewrite Ew in H1. apply in_map_iff in H1 as (i & <- & Hi).
  apply in_zrange in Hi. cbn [date midnight dt_date] in *.
  assert (Hd : d0 <= d0 + i < d0 + n) by lia.
  destruct (daily_chart_frame rng rand daily_sin g d0 n Hn (d0 + i) Hd)
    as [Ed _].
  rewrite Ed in H2. apply in_map_iff in H2 as (j & <- & Hj).
  apply in_zrange in Hj.
  assert (Hh : 0 <= j mod 24 < 24) by (Z.div_mod_to_equations; lia).
  rewrite add_midnight_hours in * by assumption.
  cbn [date hour dt_date dt_hour] in *.
  replace (d0 + j / 24) with (d0 + i) in * by (Z.div_mod_to_equations; lia).
  destruct (hourly_chart_frame rng rand daily_sin g d0 n (d0 + i) (j mod 24)
                               Hd Hh) as [Eh _].
  rewrite Eh in H3. apply in_map_iff in H3 as (r & <- & Hr).
  apply in_sample_rows in Hr as (k & Hk & ->).
  replace k with (86400 * (d0 + i - d0) + 3600 * (j mod 24)
                  + (k - (86400 * (d0 + i - d0) + 3600 * (j mod 24)))) by lia.
  rewrite timestamp_sample_in_hour by lia.
  cbn [dt_date dt_hour]. repeat split; lia.
Qed.

(** X14: drilling down through points that are on the charts: whatever
    point of the weekly chart is clicked, then whatever point of the daily
    chart this opens, then whatever point of the hourly chart that opens,
    no view is empty and the last click opens the second view of the first
    minute of the chosen date and hour: the daily chart has 24 points, the
    hourly chart 3600, and the second chart the 60 seconds from the top of
    the hour. *)
Theorem drill_down_through_rendered_points {rng : Type}
        (rand : rng -> Q * rng) (daily_sin : Z -> Q) (g : rng)
        (d0 num_days : Z) (prop_id : string) (t1 t2 t3 : datetime) :
  split_dot_first prop_id = "chart"%string ->
  In t1 (figure_x (create_weekly_chart
                     (fst (generate_mock_data rand daily_sin (midnight d0)
                                              num_days g)))) ->
  In t2 (figure_x (create_daily_chart
                     (fst (generate_mock_data rand daily_sin (midnight d0)
                                              num_days g)) (date t1))) ->
  In t3 (figure_x (create_hourly_chart
                     (fst (generate_mock_data rand daily_sin (midnight d0)
                                              num_days g)) (date t2) (hour t2))) ->
  (exists f1 : Figure,
      update_graph (fst (generate_mock_data rand daily_sin (midnight d0)
                                            num_days g))
                   [prop_id] (Some (mkClickData [mkPoint t1])) 0 "weekly"
      = Ok (f1, "daily"%string)
      /\ In t2 (figure_x f1) /\ Z.of_nat (List.length (figure_x f1)) = 24)
  /\ (exists f2 : Figure,
         update_graph (fst (generate_mock_data rand daily_sin (midnight d0)
                                               num_days g))
                      [prop_id] (Some (mkClickData [mkPoint t2])) 1 "daily"
         = Ok (f2, "hourly"%string)
         /\ In t3 (figure_x f2) /\ Z.of_nat (List.length (figure_x f2)) = 3600)
  /\ (exists f3 : Figure,
         update_graph (fst (generate_mock_data rand daily_sin (midnight d0)
                                               num_days g))
                      [prop_id] (Some (mkClickData [mkPoint t3])) 2 "hourly"
         = Ok (f3, "second"%string)
         /\ figure_x f3
            = map (fun s => mkDatetime (date t1) (hour t2) 0 s) (range 60)).
Proof.
  intros Hid.
  rewrite generate_mock_data_rows. cbn [fst].
  fold (sample_rows rand daily_sin (midnight d0) g 0 (86400 * Z.max 0 num_days)).
  assert (Hn : 0 <= Z.max 0 num_days) by lia.
  generalize dependent (Z.max 0 num_days). intros n Hn H1 H2 H3.
  destruct (rendered_points rand daily_sin g d0 n t1 t2 t3 Hn H1 H2 H3)
    as (Hd1 & Hd2 & Hh2 & Hd3 & Hh3).
  split; [| split].
  - destruct (update_graph_select
                (sample_rows rand daily_sin (midnight d0) g 0 (86400 * n))
                prop_id [] (mkClickData [mkPoint t1]) t1 0 Hid eq_refl)
      as (Hsel & _ & _).
    eexists. split; [exact Hsel|]. split; [exact H2|].
    destruct (daily_chart_frame rng rand daily_sin g d0 n Hn (date t1) Hd1)
      as [-> _].
    rewrite length_map. apply zrange_length. lia.
  - destruct (update_graph_select
                (sample_rows rand daily_sin (midnight d0) g 0 (86400 * n))
                prop_id [] (mkClickData [mkPoint t2]) t2 1 Hid eq_refl)
      as (_ & Hsel & _).
    eexists. split; [exact Hsel|]. split; [exact H3|].
    rewrite Hd2.
    destruct (hourly_chart_frame rng rand daily_sin g d0 n (date t1) (hour t2)
                                 Hd1 Hh2) as [-> _].
    rewrite length_map. apply sample_rows_length. lia.
  - destruct (update_graph_select
                (sample_rows rand daily_sin (midnight d0) g 0 (86400 * n))
                prop_id [] (mkClickData [mkPoint t3]) t3 2 Hid eq_refl)
      as (_ & _ & Hsel).
    eexists. split; [exact Hsel|].
    rewrite Hd3, Hh3. now apply second_chart_frame.
Qed.

Lemma drill_down_through_rendered_points_witness :
  split_dot_first "chart.clickData" = "chart"%string
  /\ In (midnight (ymd2ord 2024 1 3))
        (figure_x (create_weekly_chart
                     (fst (generate_mock_data example_rand example_sin
                                              (midnight (ymd2ord 2024 1 1))
                                              7 0))))
  /\ In (mkDatetime (ymd2ord 2024 1 3) 14 0 0)
        (figure_x (create_daily_chart
                     (fst (generate_mock_data example_rand example_sin
                                              (midnight (ymd2ord 2024 1 1))
                                              7 0))
                     (date (midnight (ymd2ord 2024 1 3)))))
  /\ In (mkDatetime (ymd2ord 2024 1 3) 14 52 10)
        (figure_x (create_hourly_chart
                     (fst (generate_mock_data example_rand example_sin
                                              (midnight (ymd2ord 2024 1 1))
                                              7 0))
                     (date (mkDatetime (ymd2ord 2024 1 3) 14 0 0))
                     (hour (mkDatetime (ymd2ord 2024 1 3) 14 0 0))))
  /\ exists f3 : Figure,
      update_graph (fst (generate_mock_data example_rand example_sin
                                            (midnight (ymd2ord 2024 1 1)) 7 0))
                   ["chart.clickData"%string]
                   (Some (mkClickData
                            [mkPoint (mkDatetime (ymd2ord 2024 1 3) 14 52 10)]))
                   2 "hourly"
      = Ok (f3, "second"%string)
      /\ figure_x f3
         = map (fun s => mkDatetime (date (midnight (ymd2ord 2024 1 3)))
                                    (hour (mkDatetime (ymd2ord 2024 1 3) 14 0 0))
                                    0 s)
               (range 60).
Proof.
  assert (Hn : 0 <= 7) by lia.
  assert (Hd : ymd2ord 2024 1 1 <= ymd2ord 2024 1 3 < ymd2ord 2024 1 1 + 7)
    by (vm_compute; split; [discriminate | reflexivity]).
  assert (Hh : 0 <= 14 < 24) by lia.
  assert (H1 : In (midnight (ymd2ord 2024 1 3))
                  (figure_x (create_weekly_chart
                               (fst (generate_mock_data
                                       example_rand example_sin
                                       (midnight (ymd2ord 2024 1 1)) 7 0))))).
  { rewrite (generate_mock_data_frame Z example_rand example_sin 0
                                      (ymd2ord 2024 1 1) 7 Hn).
    rewrite (proj1 (weekly_chart_frame Z example_rand example_sin 0
                                       (ymd2ord 2024 1 1) 7 Hn)).
    apply in_map_iff. exists 2. split; [reflexivity | apply in_zrange; lia]. }
  assert (H2 : In (mkDatetime (ymd2ord 2024 1 3) 14 0 0)
                  (figure_x (create_daily_chart
                               (fst (generate_mock_data
                                       example_rand example_sin
                                       (midnight (ymd2ord 2024 1 1)) 7 0))
                               (date (midnight (ymd2ord 2024 1 3)))))).
  { rewrite (generate_mock_data_frame Z example_rand example_sin 0
                                      (ymd2ord 2024 1 1) 7 Hn).
    rewrite (proj1 (daily_chart_frame Z example_rand example_sin 0
                                      (ymd2ord 2024 1 1) 7 Hn
                                      (date (midnight (ymd2ord 2024 1 3))) Hd)).
    apply in_map_iff. exists 62. split; [vm_compute; reflexivity|].
    apply in_zrange. vm_compute. split; [discriminate | reflexivity]. }
  assert (H3 : In (mkDatetime (ymd2ord 2024 1 3) 14 52 10)
                  (figure_x (create_hourly_chart
                               (fst (generate_mock_data
                                       example_rand example_sin
                                       (midnight (ymd2ord 2024 1 1)) 7 0))
                               (date (mkDatetime (ymd2ord 2024 1 3) 14 0 0))
                               (hour (mkDatetime (ymd2ord 2024 1 3) 14 0 0))))).
  { rewrite (generate_mock_data_frame Z example_rand example_sin 0
                                      (ymd2ord 2024 1 1) 7 Hn).
    rewrite (proj1 (hourly_chart_frame
                      Z example_rand example_sin 0 (ymd2ord 2024 1 1) 7
                      (date (mkDatetime (ymd2ord 2024 1 3) 14 0 0))
                      (hour (mkDatetime (ymd2ord 2024 1 3) 14 0 0)) Hd Hh)).
    apply in_map_iff.
    exists (sample_row example_rand example_sin (midnight (ymd2ord 2024 1 1)) 0
                       226330).
    split.
    - cbn [sample_row timestamp]. vm_compute. reflexivity.
    - apply in_sample_rows. exists 226330. split; [| reflexivity].
      vm_compute. split; [discriminate | reflexivity]. }
  split; [reflexivity|]. split; [exact H1|]. split; [exact H2|].
  split; [exact H3|].
  exact (proj2 (proj2 (drill_down_through_rendered_points
                         example_rand example_sin 0 (ymd2ord 2024 1 1) 7
                         "chart.clickData"
                         (midnight (ymd2ord 2024 1 3))
                         (mkDatetime (ymd2ord 2024 1 3) 14 0 0)
                         (mkDatetime (ymd2ord 2024 1 3) 14 52 10)
                         eq_refl H1 H2 H3))).
Defined.
